(** * xformers.ops.fmha: dispatch layer and autograd bridge

    A shallow embedding of [xformers/ops/fmha/__init__.py] and
    [xformers/ops/fmha/flash.py].  Python exceptions are values of [exn];
    the ambient CUDA random generator, the allocator and the log of backend
    invocations are threaded through a state-and-exception monad [M] in
    which an exception keeps the state reached so far, as in Python. *)

From Stdlib Require Import ZArith QArith List String Bool Lia.
Import ListNotations.
Open Scope string_scope.
Open Scope list_scope.
Open Scope Z_scope.

(** ** Exceptions and results *)

Inductive exn : Type :=
| ValueError (msg : string)
| NotImplementedError (msg : string)
| AssertionError (msg : string)
| TypeError (msg : string)
| RuntimeError (msg : string)
| IndexError
| ZeroDivisionError
| KernelError (code : Z).

Definition Res (A : Type) : Type := (exn + A)%type.

Definition ok {A} (a : A) : Res A := inr a.
Definition throw {A} (e : exn) : Res A := inl e.

Definition bindR {A B} (r : Res A) (k : A -> Res B) : Res B :=
  match r with
  | inl e => inl e
  | inr a => k a
  end.

Declare Scope res_scope.
Delimit Scope res_scope with res.
Notation "x <~ r ;; k" := (bindR r (fun x => k))
  (at level 61, r at next level, right associativity) : res_scope.
Notation "' pat <~ r ;; k" := (bindR r (fun x => match x with pat => k end))
  (at level 61, pat pattern, r at next level, right associativity) : res_scope.

(** The error kinds of the design, as the Python exception that carries
    each one in the source. *)
Definition is_ShapeError (e : exn) : bool :=
  match e with ValueError _ => true | _ => false end.

Definition is_UnsupportedConfigurationError (e : exn) : bool :=
  match e with
  | NotImplementedError _ | ValueError _ | AssertionError _ => true
  | _ => false
  end.

(** ** Tensors *)

Inductive DeviceKind : Type := cuda | cpu.
Inductive DType : Type := half | bfloat16 | float32 | int32.

Record Device : Type := mkDevice { dev_type : DeviceKind; dev_index : Z }.

Definition DeviceKind_eqb (a b : DeviceKind) : bool :=
  match a, b with cuda, cuda | cpu, cpu => true | _, _ => false end.

Definition DType_eqb (a b : DType) : bool :=
  match a, b with
  | half, half | bfloat16, bfloat16 | float32, float32 | int32, int32 => true
  | _, _ => false
  end.

(** A tensor is its metadata, the identity of its storage ([data_ptr]) and
    an opaque token for the element buffer; the arithmetic of the kernels is
    outside this development. *)
Record Tensor : Type := mkTensor {
  shape : list Z;
  dtype : DType;
  device : Device;
  requires_grad : bool;
  data_ptr : Z;
  data : Z
}.

Definition ndim (t : Tensor) : Z := Z.of_nat (List.length (shape t)).

(** [l[i]] with Python's negative indices and [IndexError]. *)
Definition py_index {A} (l : list A) (i : Z) : Res A :=
  let n := Z.of_nat (List.length l) in
  let j := if i <? 0 then i + n else i in
  if (j <? 0) || (n <=? j) then throw IndexError
  else match nth_error l (Z.to_nat j) with
       | Some x => ok x
       | None => throw IndexError
       end.

Definition numel (s : list Z) : Z := fold_right Z.mul 1 s.

Definition with_shape (t : Tensor) (s : list Z) : Tensor :=
  mkTensor s (dtype t) (device t) (requires_grad t) (data_ptr t) (data t).

(** [t.reshape(s)] on a tensor that the calling code has itself created
    with [torch.empty] (or [empty_like], or as a [select] of one) and reshapes
    by merging all axes of a contiguous tensor or by splitting its leading
    axis: such a reshape is always a view of the same storage.  The element
    counts must agree.  The reshape of an arbitrary operand is [reshape],
    below the environment. *)
Definition reshape_view (t : Tensor) (s : list Z) : Res Tensor :=
  if numel (shape t) =? numel s then ok (with_shape t s)
  else throw (RuntimeError "shape is invalid for input size").

Definition detach (t : Tensor) : Tensor :=
  mkTensor (shape t) (dtype t) (device t) false (data_ptr t) (data t).

(** [t.contiguous()]: the tensor itself or a contiguous copy of it; the
    code looks at neither the storage nor the strides of the result. *)
Definition contiguous (t : Tensor) : Tensor := t.

(** [t.unsqueeze(2)] *)
Definition unsqueeze2 (t : Tensor) : Tensor :=
  with_shape t (firstn 2 (shape t) ++ 1 :: skipn 2 (shape t)).

(** A 64-bit integer converted to [torch.int32]: two's complement wrap. *)
Definition wrap_int32 (z : Z) : Z := (z + 2 ^ 31) mod 2 ^ 32 - 2 ^ 31.

Definition int64_max : Z := 2 ^ 63 - 1.

(** [torch.arange(0, stop, step=step, dtype=torch.int32)], as the list of
    its entries.  A bound or a step that does not fit 64 bits, a zero step
    and bounds of the wrong sign raise.  There are [ceil(stop / step)]
    entries; entry [i] is [i * step], computed in 64 bits and stored as a
    32-bit integer, so it wraps from 2^31 on. *)
Definition arange0 (stop step : Z) : Res (list Z) :=
  if (int64_max <? stop) || (int64_max <? step) then
    throw (RuntimeError "Overflow when unpacking long")
  else if (step <=? 0) || (stop <? 0) then
    throw (RuntimeError "arange: inconsistent bounds or zero step")
  else ok (map (fun i => wrap_int32 (Z.of_nat i * step))
               (seq 0 (Z.to_nat ((stop + step - 1) / step)))).

(** ** Operands, context and gradients (the value objects of common.py) *)

Inductive AttentionMask : Type :=
| LowerTriangularMask
| OtherMask (tag : Z).

(** [Optional[Union[torch.Tensor, AttentionMask]]] *)
Inductive AttnBias : Type :=
| BiasNone
| BiasTensor (t : Tensor)
| BiasMask (m : AttentionMask).

Inductive BiasType : Type :=
| TyNoneType | TyTensor | TyLowerTriangularMask | TyOtherMask.

Definition BiasType_eqb (a b : BiasType) : bool :=
  match a, b with
  | TyNoneType, TyNoneType | TyTensor, TyTensor
  | TyLowerTriangularMask, TyLowerTriangularMask
  | TyOtherMask, TyOtherMask => true
  | _, _ => false
  end.

Definition type_of_bias (b : AttnBias) : BiasType :=
  match b with
  | BiasNone => TyNoneType
  | BiasTensor _ => TyTensor
  | BiasMask LowerTriangularMask => TyLowerTriangularMask
  | BiasMask (OtherMask _) => TyOtherMask
  end.

(** [isinstance(b, torch.Tensor)] and [isinstance(b, LowerTriangularMask)] *)
Definition isinstance_Tensor (b : AttnBias) : bool :=
  match b with BiasTensor _ => true | _ => false end.

Definition isinstance_LowerTriangularMask (b : AttnBias) : bool :=
  match b with BiasMask LowerTriangularMask => true | _ => false end.

Definition bias_is_None (b : AttnBias) : bool :=
  match b with BiasNone => true | _ => false end.

(** The dropout probability and the scale are Python floats; the code only
    compares [p] with [0.0] and passes both on, so rationals stand for them. *)
Record Inputs : Type := mkInputs {
  query : Tensor;
  key : Tensor;
  value : Tensor;
  attn_bias : AttnBias;
  p : Q;
  scale : option Q
}.

(** [inp.device] *)
Definition inp_device (inp : Inputs) : Device := device (query inp).

(** [p != 0.0] *)
Definition p_nonzero (x : Q) : bool := negb (Qeq_bool x 0).

Inductive FwOpId : Type := cutlass_FwOp | flash_FwOp | small_k_FwOp | triton_FwOp.
Inductive BwOpId : Type := cutlass_BwOp | flash_BwOp | small_k_BwOp | triton_BwOp.

(** Class identity, Python's [is]. *)
Definition FwOpId_eqb (a b : FwOpId) : bool :=
  match a, b with
  | cutlass_FwOp, cutlass_FwOp | flash_FwOp, flash_FwOp
  | small_k_FwOp, small_k_FwOp | triton_FwOp, triton_FwOp => true
  | _, _ => false
  end.

Definition BwOpId_eqb (a b : BwOpId) : bool :=
  match a, b with
  | cutlass_BwOp, cutlass_BwOp | flash_BwOp, flash_BwOp
  | small_k_BwOp, small_k_BwOp | triton_BwOp, triton_BwOp => true
  | _, _ => false
  end.

(** [AttentionOp = Tuple[Optional[FwOp], Optional[BwOp]]] *)
Definition AttentionOp : Type := (option FwOpId * option BwOpId)%type.

Definition RngState : Type := Z.

Record Context : Type := mkContext {
  out : Tensor;
  lse : Tensor;
  op_bw : option BwOpId;
  rng_state : option RngState
}.

Record Gradients : Type := mkGradients { dq : Tensor; dk : Tensor; dv : Tensor }.

(** ** The ambient state *)

Inductive Event : Type :=
| EvSetRng (s : RngState)
| EvFwApply (op : FwOpId) (needs_gradient : bool) (p_ : Q)
| EvBwApply (op : BwOpId) (p_ : Q)
| EvFlashFwdKernel (rng_at_call : RngState) (p_ : Q)
| EvFlashBwdKernel (rng_at_call : RngState) (p_ : Q)
| EvAutogradApply.

Record World : Type := mkWorld {
  rng : RngState;
  next_ptr : Z;
  trace : list Event
}.

Definition M (A : Type) : Type := World -> World * Res A.

Definition ret {A} (a : A) : M A := fun w => (w, inr a).
Definition raise {A} (e : exn) : M A := fun w => (w, inl e).

Definition bindM {A B} (m : M A) (k : A -> M B) : M B :=
  fun w => match m w with
           | (w', inl e) => (w', inl e)
           | (w', inr a) => k a w'
           end.

Definition liftR {A} (r : Res A) : M A := fun w => (w, r).

Declare Scope m_scope.
Delimit Scope m_scope with M.
Notation "x <- m ;; k" := (bindM m (fun x => k))
  (at level 61, m at next level, right associativity) : m_scope.
Notation "' pat <- m ;; k" := (bindM m (fun x => match x with pat => k end))
  (at level 61, pat pattern, m at next level, right associativity) : m_scope.
Notation "m ;;; k" := (bindM m (fun _ => k))
  (at level 61, right associativity) : m_scope.

Definition log (e : Event) : M unit :=
  fun w => (mkWorld (rng w) (next_ptr w) (trace w ++ [e]), inr tt).

(** [torch.cuda.get_rng_state()] and [torch.cuda.set_rng_state(s)] *)
Definition get_rng_state : M RngState := fun w => (w, inr (rng w)).

Definition set_rng_state (s : RngState) : M unit :=
  fun w => (mkWorld s (next_ptr w) (trace w ++ [EvSetRng s]), inr tt).

(** [torch.empty(shape, dtype=, device=)]: a fresh storage. *)
Definition torch_empty (s : list Z) (dt : DType) (dev : Device) : M Tensor :=
  fun w => (mkWorld (rng w) (next_ptr w + 1) (trace w),
            inr (mkTensor s dt dev false (next_ptr w) 0)).

Definition torch_empty_like (t : Tensor) : M Tensor :=
  torch_empty (shape t) (dtype t) (device t).

(** Python's [assert c, msg] *)
Definition py_assert (c : bool) (msg : string) : M unit :=
  if c then ret tt else raise (AssertionError msg).

(** ** External collaborators

    The native flash-attention kernels, the device query, the other backends
    (cutlass, small_k, triton), the candidate lists of the dispatcher and
    [bmk2bmhk] are not part of the two modules embedded here; they are the
    fields of an environment that every operation receives; so is the
    storage of a reshaped operand, which depends on strides that the
    embedding does not carry. *)

Inductive SoftmaxScale : Type :=
| InvSqrt (k : Z)        (* [k ** (-0.5)] *)
| GivenScale (s : Q).

Record FwdArgs : Type := mkFwdArgs {
  fa_query : Tensor; fa_key : Tensor; fa_value : Tensor; fa_out : Tensor;
  fa_cu_seqlens_q : list Z; fa_cu_seqlens_k : list Z;
  fa_max_seqlen_q : Z; fa_max_seqlen_k : Z;
  fa_p : Q; fa_softmax_scale : SoftmaxScale;
  fa_zero_tensors : bool; fa_causal : bool; fa_return_softmax : bool;
  fa_num_splits : Z
}.

Record BwdArgs : Type := mkBwdArgs {
  ba_grad : Tensor; ba_query : Tensor; ba_key : Tensor; ba_value : Tensor;
  ba_out : Tensor; ba_lse : Tensor;
  ba_dq : Tensor; ba_dk : Tensor; ba_dv : Tensor;
  ba_cu_seqlens_q : list Z; ba_cu_seqlens_k : list Z;
  ba_max_seqlen_q : Z; ba_max_seqlen_k : Z;
  ba_p : Q; ba_softmax_scale : SoftmaxScale;
  ba_zero_tensors : bool; ba_causal : bool;
  ba_num_splits : Z
}.

(** A kernel reads and advances the generator it is run under; it returns
    the log-sum-exp and the contents it wrote to [out] (forward), or the
    contents it wrote to [dq], [dk], [dv] (backward), or fails. *)
Definition FwdKernel : Type := FwdArgs -> RngState -> RngState * Res (Tensor * Z).
Definition BwdKernel : Type := BwdArgs -> RngState -> RngState * Res (Z * Z * Z).

Record Env : Type := mkEnv {
  _C_flashattention_fwd : option FwdKernel;   (* [None] after [ImportError] *)
  _C_flashattention_bwd : option BwdKernel;
  get_device_capability : Device -> Z * Z;
  bmk2bmhk : Tensor -> Z -> Res Tensor;
  reshape_storage : Tensor -> list Z -> Z;
  fw_candidates : list FwOpId;
  bw_candidates : list BwOpId;
  ext_fw_supports : FwOpId -> Inputs -> Res bool;
  ext_fw_apply : FwOpId -> Inputs -> bool -> M (Tensor * option Context);
  ext_bw_supports : BwOpId -> Inputs -> Res bool;
  ext_bw_apply : BwOpId -> Context -> Inputs -> Tensor -> M Gradients
}.

(** [t.reshape(s)] on an operand.  The element counts must agree.  The
    result is a view of the storage of [t] when the strides of [t] allow it,
    and a contiguous copy in another storage when they do not.  Strides are
    not part of [Tensor]: the storage of the result is read from the
    environment, [reshape_storage E t s], which is [data_ptr t] exactly when
    the reshape is a view. *)
Definition reshaped (E : Env) (t : Tensor) (s : list Z) : Tensor :=
  mkTensor s (dtype t) (device t) (requires_grad t) (reshape_storage E t s)
           (data t).

Definition reshape (E : Env) (t : Tensor) (s : list Z) : Res Tensor :=
  if numel (shape t) =? numel s then ok (reshaped E t s)
  else throw (RuntimeError "shape is invalid for input size").

(** ** common.py *)

Record OpDescriptor : Type := mkOpDescriptor {
  SUPPORTED_DEVICES : list DeviceKind;
  SUPPORTED_DTYPES : list DType;
  SUPPORTED_MAX_K : Z;
  SUPPORTED_ATTN_BIAS_TYPES : list BiasType;
  SUPPORTS_DROPOUT : bool;
  SUPPORTS_CUSTOM_SCALE : bool;
  SUPPORTS_DIFFERENT_VALUE_EMBED : bool;
  NAME : string
}.

(** Modelled from the spec: [AttentionOpBase.supports] of common.py, which is
    not among the sources.  It is the check of an input against the static
    metadata of section 4.2: device kind, dtype, maximum embedding width,
    accepted bias variants, dropout, custom scale and a value embedding that
    differs from the query's. *)
Definition base_supports (desc : OpDescriptor) (d : Inputs) : Res bool :=
  (qk <~ py_index (shape (query d)) (-1) ;;
   vk <~ py_index (shape (value d)) (-1) ;;
   ok (existsb (DeviceKind_eqb (dev_type (inp_device d))) (SUPPORTED_DEVICES desc)
       && existsb (DType_eqb (dtype (query d))) (SUPPORTED_DTYPES desc)
       && (Z.max qk vk <=? SUPPORTED_MAX_K desc)
       && existsb (BiasType_eqb (type_of_bias (attn_bias d)))
                  (SUPPORTED_ATTN_BIAS_TYPES desc)
       && (negb (p_nonzero (p d)) || SUPPORTS_DROPOUT desc)
       && (match scale d with None => true | Some _ => SUPPORTS_CUSTOM_SCALE desc end)
       && ((qk =? vk) || SUPPORTS_DIFFERENT_VALUE_EMBED desc)))%res.

(** Modelled from the spec: [Inputs.normalize_bmhk] of common.py, which is
    not among the sources.  Per sections 3 and 4.1 it fails with a shape
    error when the ranks of query, key and value are inconsistent or are
    neither 3 nor 4, or when the head dimensions of query and key differ; it
    promotes rank-3 operands to rank 4 by inserting a singleton heads axis,
    in place, and returns the shape of the output in the caller's layout:
    the original shape of the query with the embedding width of the value
    (the docstring of [memory_efficient_attention] gives [B, Mq, H, Kv]).
    The in-place update is the first component of the result. *)
Definition normalize_bmhk (inp : Inputs) : Res (Inputs * list Z) :=
  let q := query inp in
  let k := key inp in
  let v := value inp in
  if negb ((ndim q =? ndim k) && (ndim k =? ndim v)) then
    throw (ValueError "query, key and value must have the same rank")
  else if negb ((ndim q =? 3) || (ndim q =? 4)) then
    throw (ValueError "Invalid shape for query")
  else
    (qk <~ py_index (shape q) (-1) ;;
     kk <~ py_index (shape k) (-1) ;;
     vk <~ py_index (shape v) (-1) ;;
     if negb (qk =? kk) then
       throw (ValueError "query and key must have the same head dimension")
     else
       let output_shape := removelast (shape q) ++ [vk] in
       if ndim q =? 3 then
         ok (mkInputs (unsqueeze2 q) (unsqueeze2 k) (unsqueeze2 v)
                      (attn_bias inp) (p inp) (scale inp), output_shape)
       else ok (inp, output_shape))%res.

(** ** flash.py *)

Definition _convert_input_format (E : Env) (inp : Inputs)
  : Res (Inputs * SoftmaxScale * list Z * Z * list Z * Z) :=
  (let q := query inp in
   let k := key inp in
   let v := value inp in
   batch <~ py_index (shape q) 0 ;;
   seqlen_q <~ py_index (shape q) 1 ;;
   seqlen_kv <~ py_index (shape k) 1 ;;
   num_heads <~ py_index (shape q) 2 ;;
   head_dim_q <~ py_index (shape q) 3 ;;
   head_dim_v <~ py_index (shape v) 3 ;;
   cu_seqlens_k <~ arange0 ((batch + 1) * seqlen_kv) seqlen_kv ;;
   cu_seqlens_q <~ (if seqlen_q =? seqlen_kv then ok cu_seqlens_k
                    else arange0 ((batch + 1) * seqlen_q) seqlen_q) ;;
   q' <~ reshape E q [batch * seqlen_q; num_heads; head_dim_q] ;;
   k' <~ reshape E k [batch * seqlen_kv; num_heads; head_dim_q] ;;
   v' <~ reshape E v [batch * seqlen_kv; num_heads; head_dim_v] ;;
   let new_inp := mkInputs q' k' v' (attn_bias inp) (p inp) (scale inp) in
   softmax_scale <~ match scale inp with
                    | None =>
                        d <~ py_index (shape (query inp)) (-1) ;;
                        if d =? 0 then throw ZeroDivisionError else ok (InvSqrt d)
                    | Some s => ok (GivenScale s)
                    end ;;
   ok (new_inp, softmax_scale, cu_seqlens_q, seqlen_q, cu_seqlens_k, seqlen_kv))%res.

(** Python's [(a, b) >= (c, d)] on pairs of integers. *)
Definition pair_geb (x y : Z * Z) : bool :=
  (fst y <? fst x) || ((fst x =? fst y) && (snd y <=? snd x)).

(** [cls.OPERATOR(...)] for the forward kernel: calling [None] is a
    [TypeError]; the kernel runs under, and advances, the ambient generator. *)
Definition call_fwd_kernel (E : Env) (args : FwdArgs) : M (Tensor * Z) :=
  match _C_flashattention_fwd E with
  | None => raise (TypeError "'NoneType' object is not callable")
  | Some kern =>
      fun w =>
        let '(r', res) := kern args (rng w) in
        (mkWorld r' (next_ptr w)
                 (trace w ++ [EvFlashFwdKernel (rng w) (fa_p args)]), res)
  end.

Definition call_bwd_kernel (E : Env) (args : BwdArgs) : M (Z * Z * Z) :=
  match _C_flashattention_bwd E with
  | None => raise (TypeError "'NoneType' object is not callable")
  | Some kern =>
      fun w =>
        let '(r', res) := kern args (rng w) in
        (mkWorld r' (next_ptr w)
                 (trace w ++ [EvFlashBwdKernel (rng w) (ba_p args)]), res)
  end.

Definition with_data (t : Tensor) (d : Z) : Tensor :=
  mkTensor (shape t) (dtype t) (device t) (requires_grad t) (data_ptr t) d.

Module FwOp.

Definition OPERATOR (E : Env) : option FwdKernel := _C_flashattention_fwd E.

Definition descriptor : OpDescriptor :=
  {| SUPPORTED_DEVICES := [cuda];
     SUPPORTED_DTYPES := [half; bfloat16];
     SUPPORTED_MAX_K := 128;
     SUPPORTED_ATTN_BIAS_TYPES := [TyNoneType; TyLowerTriangularMask];
     SUPPORTS_DROPOUT := true;
     SUPPORTS_CUSTOM_SCALE := true;
     SUPPORTS_DIFFERENT_VALUE_EMBED := false;
     NAME := "flshattF" |}.

Definition supports (E : Env) (d : Inputs) : Res bool :=
  match OPERATOR E with
  | None => ok false
  | Some _ =>
      (b <~ base_supports descriptor d ;;
       if negb b then ok false
       else
         let device_capability := get_device_capability E (inp_device d) in
         k <~ py_index (shape (query d)) (-1) ;;
         if 0 <? k mod 8 then ok false
         else ok (pair_geb device_capability (7, 5)))%res
  end.

Definition apply (E : Env) (inp : Inputs) (needs_gradient : bool)
  : M (Tensor * option Context) :=
  (if negb (bias_is_None (attn_bias inp))
      && negb (isinstance_LowerTriangularMask (attn_bias inp))
   then raise (NotImplementedError "Unsupported attn_bias type")
   else
     let causal := isinstance_LowerTriangularMask (attn_bias inp) in
     let return_softmax := false in
     out_shape <- liftR (q0 <~ py_index (shape (query inp)) 0 ;;
                         q1 <~ py_index (shape (query inp)) 1 ;;
                         q2 <~ py_index (shape (query inp)) 2 ;;
                         v3 <~ py_index (shape (value inp)) 3 ;;
                         ok [q0; q1; q2; v3])%res ;;
     '(inp, softmax_scale, cu_seqlens_q, max_seqlen_q, cu_seqlens_k, max_seqlen_k)
       <- liftR (_convert_input_format E inp) ;;
     e_shape <- liftR (q0 <~ py_index (shape (query inp)) 0 ;;
                       q1 <~ py_index (shape (query inp)) 1 ;;
                       v2 <~ py_index (shape (value inp)) 2 ;;
                       ok [q0; q1; v2])%res ;;
     out_ <- torch_empty e_shape (dtype (query inp)) (inp_device inp) ;;
     rng_state_ <- (if p_nonzero (p inp)
                    then (s <- get_rng_state ;; ret (Some s))
                    else ret None) ;;
     '(softmax_lse, written) <-
       call_fwd_kernel E
         (mkFwdArgs (query inp) (key inp) (value inp) out_
                    cu_seqlens_q cu_seqlens_k max_seqlen_q max_seqlen_k
                    (p inp) softmax_scale false causal return_softmax 0) ;;
     out_ <- liftR (reshape_view (with_data out_ written) out_shape) ;;
     let ctx := mkContext out_ softmax_lse None None in
     let ctx := if p_nonzero (p inp)
                then mkContext (out ctx) (lse ctx) (Some flash_BwOp) rng_state_
                else ctx in
     ret (out_, Some ctx))%M.

End FwOp.

Module BwOp.

Definition OPERATOR (E : Env) : option BwdKernel := _C_flashattention_bwd E.

Definition descriptor : OpDescriptor :=
  {| SUPPORTED_DEVICES := SUPPORTED_DEVICES FwOp.descriptor;
     SUPPORTED_DTYPES := SUPPORTED_DTYPES FwOp.descriptor;
     SUPPORTED_MAX_K := SUPPORTED_MAX_K FwOp.descriptor;
     SUPPORTED_ATTN_BIAS_TYPES := SUPPORTED_ATTN_BIAS_TYPES FwOp.descriptor;
     SUPPORTS_DROPOUT := SUPPORTS_DROPOUT FwOp.descriptor;
     SUPPORTS_CUSTOM_SCALE := SUPPORTS_CUSTOM_SCALE FwOp.descriptor;
     SUPPORTS_DIFFERENT_VALUE_EMBED :=
       SUPPORTS_DIFFERENT_VALUE_EMBED FwOp.descriptor;
     NAME := "flshattB" |}.

Definition supports (E : Env) (d : Inputs) : Res bool :=
  (b <~ FwOp.supports E d ;;
   if negb b then ok false
   else
     let device_capability := get_device_capability E (inp_device d) in
     let is_sm80 := (fst device_capability =? 8) && (snd device_capability =? 0) in
     kk <~ py_index (shape (key d)) (-1) ;;
     qk <~ py_index (shape (query d)) (-1) ;;
     if (64 <? Z.max kk qk) && negb is_sm80 then ok false
     else ok true)%res.

(** [chunk.select(1, i)]: a view of [chunk] without its second axis. *)
Definition select1 (chunk : Tensor) : Tensor :=
  with_shape chunk
    (match shape chunk with a :: _ :: rest => a :: rest | s => s end).

Definition apply (E : Env) (ctx : Context) (inp : Inputs) (grad : Tensor)
  : M Gradients :=
  (let dq_shape := shape (query inp) in
   let dk_shape := shape (key inp) in
   let dv_shape := shape (value inp) in
   '(inp, softmax_scale, cu_seqlens_q, max_seqlen_q, cu_seqlens_k, max_seqlen_k)
     <- liftR (_convert_input_format E inp) ;;
   kernel_out_shape <- liftR (q0 <~ py_index (shape (query inp)) 0 ;;
                              q1 <~ py_index (shape (query inp)) 1 ;;
                              v2 <~ py_index (shape (value inp)) 2 ;;
                              ok [q0; q1; v2])%res ;;
   single_qkv <- liftR (q0 <~ py_index (shape (query inp)) 0 ;;
                        k0 <~ py_index (shape (key inp)) 0 ;;
                        if negb (q0 =? k0) then ok false
                        else
                          q2 <~ py_index (shape (query inp)) 2 ;;
                          v2 <~ py_index (shape (value inp)) 2 ;;
                          ok ((q2 =? v2)
                              && (data_ptr (query inp) =? data_ptr (key inp))
                              && (data_ptr (query inp) =? data_ptr (value inp))))%res ;;
   grads <- (if single_qkv : bool then
               s <- liftR (q0 <~ py_index (shape (query inp)) 0 ;;
                           q1 <~ py_index (shape (query inp)) 1 ;;
                           q2 <~ py_index (shape (query inp)) 2 ;;
                           ok [q0; 3; q1; q2])%res ;;
               chunk <- torch_empty s (dtype (query inp)) (inp_device inp) ;;
               ret (mkGradients (select1 chunk) (select1 chunk) (select1 chunk))
             else
               dq_ <- torch_empty_like (query inp) ;;
               dk_ <- torch_empty_like (key inp) ;;
               dv_ <- torch_empty_like (value inp) ;;
               ret (mkGradients dq_ dk_ dv_)) ;;
   py_assert (existsb (DType_eqb (dtype grad)) (SUPPORTED_DTYPES descriptor))
             "grad.dtype in cls.SUPPORTED_DTYPES" ;;;
   cur_rng_state <- (if p_nonzero (p inp) then
                       match rng_state ctx with
                       | None => raise (AssertionError "ctx.rng_state is not None")
                       | Some saved =>
                           cur <- get_rng_state ;;
                           set_rng_state saved ;;;
                           ret (Some cur)
                       end
                     else ret None) ;;
   g <- liftR (reshape E grad kernel_out_shape) ;;
   o <- liftR (reshape E (out ctx) kernel_out_shape) ;;
   '(wq, wk, wv) <-
     call_bwd_kernel E
       (mkBwdArgs (contiguous g) (query inp) (key inp) (value inp) o (lse ctx)
                  (dq grads) (dk grads) (dv grads)
                  cu_seqlens_q cu_seqlens_k max_seqlen_q max_seqlen_k
                  (p inp) softmax_scale false
                  (isinstance_LowerTriangularMask (attn_bias inp)) 0) ;;
   match cur_rng_state with
   | Some cur => set_rng_state cur
   | None => ret tt
   end ;;;
   dq_ <- liftR (reshape_view (with_data (dq grads) wq) dq_shape) ;;
   dk_ <- liftR (reshape_view (with_data (dk grads) wk) dk_shape) ;;
   dv_ <- liftR (reshape_view (with_data (dv grads) wv) dv_shape) ;;
   ret (mkGradients dq_ dk_ dv_))%M.

End BwOp.

(** ** dispatch.py *)

(** [op.supports(d)] and [op.apply(...)] on an operator class; the flash
    operators are the ones embedded above, the others are external. *)
Definition fw_supports (E : Env) (op : FwOpId) (d : Inputs) : Res bool :=
  match op with
  | flash_FwOp => FwOp.supports E d
  | _ => ext_fw_supports E op d
  end.

Definition bw_supports (E : Env) (op : BwOpId) (d : Inputs) : Res bool :=
  match op with
  | flash_BwOp => BwOp.supports E d
  | _ => ext_bw_supports E op d
  end.

Definition fw_apply (E : Env) (op : FwOpId) (inp : Inputs) (needs_gradient : bool)
  : M (Tensor * option Context) :=
  (log (EvFwApply op needs_gradient (p inp)) ;;;
   match op with
   | flash_FwOp => FwOp.apply E inp needs_gradient
   | _ => ext_fw_apply E op inp needs_gradient
   end)%M.

Definition bw_apply (E : Env) (op : BwOpId) (ctx : Context) (inp : Inputs)
  (grad : Tensor) : M Gradients :=
  (log (EvBwApply op (p inp)) ;;;
   match op with
   | flash_BwOp => BwOp.apply E ctx inp grad
   | _ => ext_bw_apply E op ctx inp grad
   end)%M.

Fixpoint first_supported {Id : Type} (supports : Id -> Inputs -> Res bool)
  (candidates : list Id) (inp : Inputs) : Res Id :=
  match candidates with
  | [] => throw (NotImplementedError "No operator found for this attention")
  | c :: rest =>
      (b <~ supports c inp ;;
       if b : bool then ok c else first_supported supports rest inp)%res
  end.

(** Modelled from the spec: [_dispatch_fw] and [_dispatch_bw] of dispatch.py,
    which is not among the sources.  Per section 4.3 each walks a fixed,
    ordered list of candidates and returns the first one whose [supports]
    accepts the inputs, and fails when none does. *)
Definition _dispatch_fw (E : Env) (inp : Inputs) : Res FwOpId :=
  first_supported (fw_supports E) (fw_candidates E) inp.

Definition _dispatch_bw (E : Env) (inp : Inputs) : Res BwOpId :=
  first_supported (bw_supports E) (bw_candidates E) inp.

(** ** __init__.py *)

(** A positional argument of [_fMHA.apply]. *)
Inductive PyVal : Type :=
| PyNone
| PyTensor (t : Tensor)
| PyMask (m : AttentionMask)
| PyFloat (x : Q).

Definition PyVal_of_bias (b : AttnBias) : PyVal :=
  match b with
  | BiasNone => PyNone
  | BiasTensor t => PyTensor t
  | BiasMask m => PyMask m
  end.

Definition PyVal_of_scale (s : option Q) : PyVal :=
  match s with None => PyNone | Some x => PyFloat x end.

(** The constructor [Inputs] on the unpacked [args]: three to six positional arguments, the last three with
    the defaults [None], [0.0], [None].  The fields are typed here, so a
    value of another type is refused at construction. *)
Definition bad_args {A : Type} : Res A :=
  throw (TypeError "Inputs: unexpected arguments").

Definition Inputs_of_args (args : list PyVal) : Res Inputs :=
  let bias_of v :=
    match v with
    | PyNone => ok BiasNone
    | PyTensor t => ok (BiasTensor t)
    | PyMask m => ok (BiasMask m)
    | PyFloat _ => bad_args
    end in
  let p_of v := match v with PyFloat x => ok x | _ => bad_args end in
  let scale_of v :=
    match v with PyNone => ok None | PyFloat x => ok (Some x) | _ => bad_args end in
  match args with
  | PyTensor q :: PyTensor k :: PyTensor v :: rest =>
      match rest with
      | [] => ok (mkInputs q k v BiasNone 0%Q None)
      | [b] => (b <~ bias_of b ;; ok (mkInputs q k v b 0%Q None))%res
      | [b; x] =>
          (b <~ bias_of b ;; x <~ p_of x ;; ok (mkInputs q k v b x None))%res
      | [b; x; s] =>
          (b <~ bias_of b ;; x <~ p_of x ;; s <~ scale_of s ;;
           ok (mkInputs q k v b x s))%res
      | _ => bad_args
      end
  | _ => bad_args
  end.

Definition _memory_efficient_attention_forward (E : Env) (inp : Inputs)
  (op : option FwOpId) : M Tensor :=
  ('(inp, output_shape) <- liftR (normalize_bmhk inp) ;;
   op <- match op with
         | None => liftR (_dispatch_fw E inp)
         | Some o => ret o
         end ;;
   r <- fw_apply E op inp false ;;
   liftR (reshape E (fst r) output_shape))%M.

(** The operand is normalised in place, and [_fMHA.forward] reads it again
    afterwards: the updated operand is returned next to the result. *)
Definition _memory_efficient_attention_forward_requires_grad (E : Env)
  (inp : Inputs) (op : option FwOpId) : M (Inputs * (Tensor * Context)) :=
  ('(inp, output_shape) <- liftR (normalize_bmhk inp) ;;
   op <- match op with
         | None => liftR (_dispatch_fw E inp)
         | Some o => ret o
         end ;;
   r <- fw_apply E op inp true ;;
   match snd r with
   | None => raise (AssertionError "out[1] is not None")
   | Some c =>
       o <- liftR (reshape E (fst r) output_shape) ;;
       ret (inp, (o, c))
   end)%M.

Definition msg_ranks : string :=
  "All tensors should be either in BMK (ndim=3) or BMHK (ndim=4) format.".
Definition msg_lse : string := "Input tensors have incompatible shapes.".

(** Lines 320-339 of [_memory_efficient_attention_backward]: the two shape
    checks around the in-place normalisation.  The result is the normalised
    operand. *)
Definition validate_backward_shapes (grad : Tensor) (ctx : Context)
  (inp : Inputs) : Res Inputs :=
  if negb (ndim grad =? ndim (query inp)) || negb (ndim grad =? ndim (out ctx))
  then throw (ValueError msg_ranks)
  else
    ('(inp, _) <~ normalize_bmhk inp ;;
     bad <~ (if negb (ndim (lse ctx) =? 3) then ok true
             else
               l0 <~ py_index (shape (lse ctx)) 0 ;;
               q0 <~ py_index (shape (query inp)) 0 ;;
               if negb (l0 =? q0) then ok true
               else
                 l1 <~ py_index (shape (lse ctx)) 1 ;;
                 q2 <~ py_index (shape (query inp)) 2 ;;
                 if negb (l1 =? q2) then ok true
                 else
                   l2 <~ py_index (shape (lse ctx)) 2 ;;
                   q1 <~ py_index (shape (query inp)) 1 ;;
                   ok (l2 <? q1)) ;;
     if bad : bool then throw (ValueError msg_lse) else ok inp)%res.

(** The two conditions tested by the validation, on the batch size, the
    query sequence length and the number of heads of the normalised query. *)
Definition ranks_differ (grad : Tensor) (ctx : Context) (inp : Inputs) : bool :=
  negb (ndim grad =? ndim (query inp)) || negb (ndim grad =? ndim (out ctx)).

Definition lse_incompatible (ctx : Context) (batch seqlen heads : Z) : bool :=
  negb (ndim (lse ctx) =? 3)
  || negb (nth 0 (shape (lse ctx)) 0 =? batch)
  || negb (nth 1 (shape (lse ctx)) 0 =? heads)
  || (nth 2 (shape (lse ctx)) 0 <? seqlen).

Definition _memory_efficient_attention_backward (E : Env) (ctx : Context)
  (inp : Inputs) (grad : Tensor) (op : option BwOpId) : M Gradients :=
  (inp <- liftR (validate_backward_shapes grad ctx inp) ;;
   grad <- liftR (bmk2bmhk E grad 1) ;;
   out_ <- liftR (bmk2bmhk E (out ctx) 1) ;;
   let ctx := mkContext out_ (lse ctx) (op_bw ctx) (rng_state ctx) in
   op <- match op with
         | None => liftR (_dispatch_bw E inp)
         | Some o => ret o
         end ;;
   bw_apply E op ctx inp grad)%M.

(** The object that [torch.autograd.Function] hands to [forward] and keeps
    for [backward]: the tensors given to [save_for_backward], the plain
    attributes set by [forward], and [needs_input_grad], one flag per
    argument of [apply], which autograd sets before [forward] runs. *)
Record SavedTensors : Type := mkSaved {
  saved_query : Tensor;
  saved_key : Tensor;
  saved_value : Tensor;
  saved_out : Tensor;
  saved_lse : Tensor;
  saved_rng_state : option RngState;
  saved_attn_bias_tensor : option Tensor
}.

Record FunctionCtx : Type := mkFunctionCtx {
  needs_input_grad : list bool;
  saved_tensors : SavedTensors;
  ctx_op_fw : option FwOpId;
  ctx_op_bw : option BwOpId;
  ctx_p : Q;
  ctx_scale : option Q;
  attn_bias_ctx : AttnBias;
  n_args : nat
}.

(** [all(not flags[i] for i in idx)], left to right, stopping at the first
    requested gradient. *)
Fixpoint all_not_requested (flags : list bool) (idx : list nat) : Res bool :=
  match idx with
  | [] => ok true
  | i :: rest =>
      (b <~ py_index flags (Z.of_nat i) ;;
       if b : bool then ok false else all_not_requested flags rest)%res
  end.

(** [i not in [1, 2, 3]] *)
Definition not_qkv (i : nat) : bool :=
  negb ((i =? 1) || (i =? 2) || (i =? 3))%nat.

(** [op[0] if op is not None else None] and [op[1] if op is not None else None] *)
Definition fw_half (op : option AttentionOp) : option FwOpId :=
  match op with Some o => fst o | None => None end.

Definition bw_half (op : option AttentionOp) : option BwOpId :=
  match op with Some o => snd o | None => None end.

Module _fMHA.

(** Lines 48-53: the part of the bias that goes to [save_for_backward]
    and the part kept as a plain attribute. *)
Definition split_attn_bias (b : AttnBias) : option Tensor * AttnBias :=
  match b with
  | BiasTensor t => (Some t, BiasNone)
  | _ => (None, b)
  end.

Definition msg_op_bw : string :=
  "Specified op_bw, but forward op can only run with its own op_bw. Please set op_bw=None.".

(** Lines 64-70: the backward operator to record, given the caller's and
    the one pinned by the forward operator's context. *)
Definition resolve_op_bw (given pinned : option BwOpId) : Res (option BwOpId) :=
  match pinned with
  | Some pin =>
      match given with
      | Some g =>
          if negb (BwOpId_eqb g pin) then throw (ValueError msg_op_bw)
          else ok (Some pin)
      | None => ok (Some pin)
      end
  | None => ok given
  end.

(** [is not None], for the two parts of the stored bias. *)
Definition tensor_part_populated (t : option Tensor) : bool :=
  match t with Some _ => true | None => false end.

Definition plain_part_populated (c : AttnBias) : bool := negb (bias_is_None c).

Definition forward (E : Env) (flags : list bool) (op : option AttentionOp)
  (args : list PyVal) : M (Tensor * FunctionCtx) :=
  (inp <- liftR (Inputs_of_args args) ;;
   let op_fw := fw_half op in
   let op_bw_ := bw_half op in
   '(inp, (out_, op_ctx)) <-
     _memory_efficient_attention_forward_requires_grad E inp op_fw ;;
   let '(attn_bias_tensor, attn_bias_ctx_) := split_attn_bias (attn_bias inp) in
   let saved := mkSaved (detach (query inp)) (detach (key inp))
                        (detach (value inp)) (out op_ctx) (lse op_ctx)
                        (rng_state op_ctx) attn_bias_tensor in
   op_bw_ <- liftR (resolve_op_bw op_bw_ (op_bw op_ctx)) ;;
   ret (out_, mkFunctionCtx flags saved op_fw op_bw_ (p inp) (scale inp)
                            attn_bias_ctx_ (List.length args)))%M.

Definition deserialize_bias (attn_bias_ctx_ : AttnBias)
  (attn_bias_tensor : option Tensor) : AttnBias :=
  match attn_bias_tensor with
  | None => attn_bias_ctx_
  | Some t => BiasTensor t
  end.

Definition msg_qkv_only : string :=
  "Only gradients to Q/K/V is implemented. For instance, it's not possible to backpropagate through the attention mask".

(** Lines 97-107: the operands and the context re-created from what
    [forward] saved. *)
Definition saved_inputs (ctx : FunctionCtx) : Inputs :=
  let s := saved_tensors ctx in
  mkInputs (saved_query s) (saved_key s) (saved_value s)
           (deserialize_bias (attn_bias_ctx ctx) (saved_attn_bias_tensor s))
           (ctx_p ctx) (ctx_scale ctx).

Definition saved_context (ctx : FunctionCtx) : Context :=
  let s := saved_tensors ctx in
  mkContext (saved_out s) (saved_lse s) None (saved_rng_state s).

(** Line 91: the flags inspected by the assertion. *)
Definition checked_positions (ctx : FunctionCtx) : list nat :=
  filter not_qkv (seq 0 (n_args ctx)).

Definition backward (E : Env) (ctx : FunctionCtx) (grad : Tensor)
  : M (list (option Tensor)) :=
  (c <- liftR (all_not_requested (needs_input_grad ctx) (checked_positions ctx)) ;;
   py_assert c msg_qkv_only ;;;
   let inp := saved_inputs ctx in
   let op_ctx := saved_context ctx in
   grads <- _memory_efficient_attention_backward E op_ctx inp grad (ctx_op_bw ctx) ;;
   ret ([None; Some (dq grads); Some (dk grads); Some (dv grads)]
        ++ repeat None (n_args ctx - 3)%nat))%M.

(** [_fMHA.apply] on [op] and the unpacked [args]: autograd fills [needs_input_grad] from the
    arguments, runs [forward], and keeps the context on the graph. *)
Definition val_requires_grad (v : PyVal) : bool :=
  match v with PyTensor t => requires_grad t | _ => false end.

Definition apply (E : Env) (op : option AttentionOp) (args : list PyVal)
  : M (Tensor * FunctionCtx) :=
  (log EvAutogradApply ;;;
   forward E (false :: map val_requires_grad args) op args)%M.

End _fMHA.

(** What [_fMHA.forward] stores (lines 55-76), once the forward operator has
    returned the context [op_ctx] and [recorded] is the backward operator
    that was resolved. *)
Definition stored_ctx (flags : list bool) (op : option AttentionOp)
  (args : list PyVal) (inp' : Inputs) (op_ctx : Context)
  (recorded : option BwOpId) : FunctionCtx :=
  mkFunctionCtx flags
    (mkSaved (detach (query inp')) (detach (key inp')) (detach (value inp'))
             (out op_ctx) (lse op_ctx) (rng_state op_ctx)
             (fst (_fMHA.split_attn_bias (attn_bias inp'))))
    (fw_half op) recorded (p inp') (scale inp')
    (snd (_fMHA.split_attn_bias (attn_bias inp'))) (List.length args).

Definition _memory_efficient_attention (E : Env) (inp : Inputs)
  (op : option AttentionOp) : M Tensor :=
  if forallb (fun x => negb (requires_grad x)) [query inp; key inp; value inp]
  then _memory_efficient_attention_forward E inp (fw_half op)
  else
    ('(inp, output_shape) <- liftR (normalize_bmhk inp) ;;
     r <- _fMHA.apply E op
            [PyTensor (query inp); PyTensor (key inp); PyTensor (value inp);
             PyVal_of_bias (attn_bias inp); PyFloat (p inp);
             PyVal_of_scale (scale inp)] ;;
     liftR (reshape E (fst r) output_shape))%M.

Definition msg_dropout : string :=
  "dropout is not supported on the non-autograd API. If you want to use dropout, please call `memory_efficient_attention` directly".

Definition memory_efficient_attention (E : Env) (query_ key_ value_ : Tensor)
  (attn_bias_ : AttnBias) (p_ : Q) (scale_ : option Q) (op : option AttentionOp)
  : M Tensor :=
  _memory_efficient_attention E
    (mkInputs query_ key_ value_ attn_bias_ p_ scale_) op.

Definition memory_efficient_attention_forward (E : Env)
  (query_ key_ value_ : Tensor) (attn_bias_ : AttnBias) (p_ : Q)
  (scale_ : option Q) (op : option FwOpId) : M Tensor :=
  _memory_efficient_attention_forward E
    (mkInputs query_ key_ value_ attn_bias_ p_ scale_) op.


Definition memory_efficient_attention_backward (E : Env)
  (grad output lse_ query_ key_ value_ : Tensor) (attn_bias_ : AttnBias)
  (p_ : Q) (scale_ : option Q) (op : option BwOpId)
  : M (Tensor * Tensor * Tensor) :=
  if p_nonzero p_ then raise (NotImplementedError msg_dropout)
  else
    (gradients <-
       _memory_efficient_attention_backward E
         (mkContext output lse_ None None)
         (mkInputs query_ key_ value_ attn_bias_ p_ scale_) grad op ;;
     ret (dq gradients, dk gradients, dv gradients))%M.

(** ** A concrete environment

    One device, toy kernels that succeed (or fail with a fixed code) and
    advance the generator by one, and no backend besides flash.  The closed
    examples of the development run in it. *)

Module Sample.

Definition dev0 : Device := mkDevice cuda 0.

Definition tensor (s : list Z) (rg : bool) (ptr : Z) : Tensor :=
  mkTensor s half dev0 rg ptr 0.

Definition fwd_kernel : FwdKernel :=
  fun args r =>
    (r + 1,
     ok (mkTensor [Z.of_nat (List.length (fa_cu_seqlens_q args)) - 1;
                   nth 1 (shape (fa_query args)) 0;
                   fa_max_seqlen_q args] float32 dev0 false 1000 1,
         1)).

Definition bwd_kernel : BwdKernel := fun _ r => (r + 1, ok (1, 2, 3)).

Definition failing_bwd_kernel : BwdKernel :=
  fun _ r => (r + 1, throw (KernelError 700)).

Definition to_bmhk (t : Tensor) (num_heads : Z) : Res Tensor :=
  match shape t with
  | [_; _; _; _] => ok t
  | [b; m; k] => ok (with_shape t [b / num_heads; m; num_heads; k])
  | _ => throw (RuntimeError "bmk2bmhk")
  end.

Definition env (cap : Z * Z) (bwd : option BwdKernel) : Env :=
  {| _C_flashattention_fwd := Some fwd_kernel;
     _C_flashattention_bwd := bwd;
     get_device_capability := fun _ => cap;
     bmk2bmhk := to_bmhk;
     reshape_storage := fun t _ => data_ptr t;
     fw_candidates := [flash_FwOp];
     bw_candidates := [flash_BwOp];
     ext_fw_supports := fun _ _ => ok false;
     ext_fw_apply := fun _ _ _ => raise (NotImplementedError "not built");
     ext_bw_supports := fun _ _ => ok false;
     ext_bw_apply := fun _ _ _ _ => raise (NotImplementedError "not built") |}.

Definition a100 : Env := env (8, 0) (Some bwd_kernel).
Definition t4 : Env := env (7, 5) (Some bwd_kernel).
Definition a100_failing_bwd : Env := env (8, 0) (Some failing_bwd_kernel).

(** batch 2, sequence 8, 4 heads, head dimension 16 *)
Definition q : Tensor := tensor [2; 8; 4; 16] false 1.
Definition k : Tensor := tensor [2; 8; 4; 16] false 2.
Definition v : Tensor := tensor [2; 8; 4; 16] false 3.
Definition q_grad : Tensor := tensor [2; 8; 4; 16] true 1.

(** the same operands with head dimension 128 *)
Definition q128 : Tensor := tensor [2; 8; 4; 128] false 1.
Definition k128 : Tensor := tensor [2; 8; 4; 128] false 2.
Definition v128 : Tensor := tensor [2; 8; 4; 128] false 3.

Definition grad : Tensor := tensor [2; 8; 4; 16] false 4.
Definition lse_ : Tensor := mkTensor [2; 4; 8] float32 dev0 false 1000 1.

Definition w0 : World := mkWorld 42 100 [].

Definition dropout : Q := 1 # 2.

(** The positional arguments of a differentiable call with dropout, and
    what the flash forward operator leaves behind for it. *)
Definition args_dropout : list PyVal :=
  [PyTensor q_grad; PyTensor k; PyTensor v; PyNone; PyFloat dropout; PyNone].

Definition inp_dropout : Inputs := mkInputs q_grad k v BiasNone dropout None.

Definition w_fw : World :=
  mkWorld 43 101 [EvFwApply flash_FwOp true dropout; EvFlashFwdKernel 42 dropout].

Definition out_fw : Tensor := mkTensor [2; 8; 4; 16] half dev0 false 100 1.

Definition ctx_fw : Context := mkContext out_fw lse_ (Some flash_BwOp) (Some 42).

(** A saved context in which autograd asks for a gradient of the last
    argument, [scale]. *)
Definition fctx_scale_requested : FunctionCtx :=
  mkFunctionCtx [false; true; true; true; false; false; true]
    (mkSaved q k v out_fw lse_ None None)
    None None 0 (Some (1 # 4)) BiasNone 6.

(** The differentiable call with dropout, through [_fMHA.apply]. *)
Definition w_apply : World :=
  mkWorld 43 101
    [EvAutogradApply; EvFwApply flash_FwOp true dropout;
     EvFlashFwdKernel 42 dropout].

Definition fctx_dropout : FunctionCtx :=
  stored_ctx (false :: map _fMHA.val_requires_grad args_dropout) None
    args_dropout inp_dropout ctx_fw (Some flash_BwOp).

Definition w_bw : World :=
  mkWorld 43 104
    [EvAutogradApply; EvFwApply flash_FwOp true dropout;
     EvFlashFwdKernel 42 dropout; EvBwApply flash_BwOp dropout;
     EvSetRng 42; EvFlashBwdKernel 42 dropout; EvSetRng 43].

Definition grads_bw : Gradients :=
  mkGradients (mkTensor [2; 8; 4; 16] half dev0 false 101 1)
              (mkTensor [2; 8; 4; 16] half dev0 false 102 2)
              (mkTensor [2; 8; 4; 16] half dev0 false 103 3).

(** The ambient state when backward starts, after other work has used the
    generator since forward. *)
Definition w_ambient : World := mkWorld 7 200 [].

Definition w_after_bw : World :=
  mkWorld 7 203 [EvSetRng 42; EvFlashBwdKernel 42 dropout; EvSetRng 7].

Definition grads_ambient : Gradients :=
  mkGradients (mkTensor [2; 8; 4; 16] half dev0 false 200 1)
              (mkTensor [2; 8; 4; 16] half dev0 false 201 2)
              (mkTensor [2; 8; 4; 16] half dev0 false 202 3).

(** A causal call without dropout. *)
Definition args_causal : list PyVal :=
  [PyTensor q_grad; PyTensor k; PyTensor v; PyMask LowerTriangularMask;
   PyFloat 0; PyNone].

Definition inp_causal : Inputs :=
  mkInputs q_grad k v (BiasMask LowerTriangularMask) 0 None.

Definition w_causal : World :=
  mkWorld 43 101 [EvFwApply flash_FwOp true 0; EvFlashFwdKernel 42 0].

Definition fctx_causal : FunctionCtx :=
  stored_ctx [] None args_causal inp_causal
    (mkContext out_fw lse_ None None) None.

End Sample.


(** The batch size, the query sequence length and the number of heads of a
    query given as [B, M, K] (one head) or as [B, M, H, K]. *)
Definition query_dims (q : Tensor) : Z * Z * Z :=
  match shape q with
  | [b; m; _] => (b, m, 1)
  | s => (nth 0 s 0, nth 1 s 0, nth 2 s 0)
  end.

(** ** Further concrete runs in the sample environment *)

Module Scenario.

Import Sample.

(** The sample operands without dropout, and what the flash forward
    operator returns on them from [w0]. *)
Definition inp_plain : Inputs := mkInputs q k v BiasNone 0 None.

Definition ctx_plain : Context := mkContext out_fw lse_ None None.

Definition w_fw_plain : World := mkWorld 43 101 [EvFlashFwdKernel 42 0].

(** The dropout operands flattened by [_convert_input_format]. *)
Definition flat_dropout : Inputs :=
  mkInputs (tensor [16; 4; 16] true 1) (tensor [16; 4; 16] false 2)
           (tensor [16; 4; 16] false 3) BiasNone dropout None.

(** Query, key and value as three views of one storage. *)
Definition qkv : Tensor := tensor [2; 8; 4; 16] false 1.

Definition inp_packed : Inputs := mkInputs qkv qkv qkv BiasNone 0 None.

Definition w_bw_packed : World := mkWorld 8 201 [EvFlashBwdKernel 7 0].

Definition grads_packed : Gradients :=
  mkGradients (mkTensor [2; 8; 4; 16] half dev0 false 200 1)
              (mkTensor [2; 8; 4; 16] half dev0 false 200 2)
              (mkTensor [2; 8; 4; 16] half dev0 false 200 3).

Definition w_bw_plain : World := mkWorld 8 203 [EvFlashBwdKernel 7 0].

(** A gradient in single precision, and a dense bias. *)
Definition grad32 : Tensor := mkTensor [2; 8; 4; 16] float32 dev0 false 4 0.


Definition inp128 : Inputs := mkInputs q128 k128 v128 BiasNone 0 None.

(** A key whose head dimension (32) is not the query's (16). *)
Definition inp_key32 : Inputs :=
  mkInputs q (tensor [2; 8; 4; 32] false 2) v BiasNone 0 None.

(** The sample environment after a failed import of the extension. *)
Definition no_extension : Env :=
  {| _C_flashattention_fwd := None;
     _C_flashattention_bwd := None;
     get_device_capability := fun _ => (8, 0);
     bmk2bmhk := to_bmhk;
     reshape_storage := fun t _ => data_ptr t;
     fw_candidates := [flash_FwOp];
     bw_candidates := [flash_BwOp];
     ext_fw_supports := fun _ _ => ok false;
     ext_fw_apply := fun _ _ _ => raise (NotImplementedError "not built");
     ext_bw_supports := fun _ _ => ok false;
     ext_bw_apply := fun _ _ _ _ => raise (NotImplementedError "not built") |}.

(** A differentiable call with dropout on the flash forward operator, and
    its backward started from [w_ambient]. *)
Definition fctx_replay : FunctionCtx :=
  stored_ctx (false :: map _fMHA.val_requires_grad args_dropout)
    (Some (Some flash_FwOp, None)) args_dropout inp_dropout ctx_fw
    (Some flash_BwOp).

Definition w_replay : World :=
  mkWorld 7 203
    [EvBwApply flash_BwOp dropout; EvSetRng 42; EvFlashBwdKernel 42 dropout;
     EvSetRng 7].

Definition tup_replay : list (option Tensor) :=
  [None; Some (dq grads_ambient); Some (dk grads_ambient);
   Some (dv grads_ambient); None; None; None].

(** Saved contexts without dropout: one asking gradients for the query
    only, one asking a gradient for the bias as well. *)
Definition fctx_plain : FunctionCtx :=
  mkFunctionCtx [false; true; false; false; false; false; false]
    (mkSaved q k v out_fw lse_ None None)
    (Some flash_FwOp) (Some flash_BwOp) 0 None BiasNone 6.

Definition fctx_bias_requested : FunctionCtx :=
  mkFunctionCtx [false; true; true; true; true; false; false]
    (mkSaved q k v out_fw lse_ None None)
    (Some flash_FwOp) (Some flash_BwOp) 0 None BiasNone 6.

End Scenario.

(** ** Frames of a computation

    [quiet m]: whatever [m] does and however it ends, it leaves the random
    generator and the log of invocations as they were.  [refuses m]: [m]
    never returns a result. *)

Definition quiet {A : Type} (m : M A) : Prop :=
  forall (w w' : World) (r : Res A),
    m w = (w', r) -> rng w' = rng w /\ trace w' = trace w.

Definition refuses {A : Type} (m : M A) : Prop :=
  forall (w w' : World) (r : Res A), m w = (w', r) -> exists e, r = inl e.

(** * Properties *)

(** ** Reasoning about the two monads *)

Lemma bindR_inr {A B} (r : Res A) (k : A -> Res B) (b : B) :
  bindR r k = inr b -> exists a, r = inr a /\ k a = inr b.
Proof.
  destruct r as [e | a]; simpl; intros H; [discriminate | eauto].
Qed.

Lemma bindM_inr {A B} (m : M A) (k : A -> M B) (w w' : World) (b : B) :
  bindM m k w = (w', inr b) ->
  exists w1 a, m w = (w1, inr a) /\ k a w1 = (w', inr b).
Proof.
  unfold bindM. destruct (m w) as [w1 [e | a]]; intros H; [discriminate | eauto].
Qed.

Lemma liftR_inr {A} (r : Res A) (w w' : World) (a : A) :
  liftR r w = (w', inr a) -> w' = w /\ r = inr a.
Proof. unfold liftR. intros H. inversion H. auto. Qed.

Lemma p_nonzero_of_pos (x : Q) : (0 < x)%Q -> p_nonzero x = true.
Proof.
  intros Hpos. unfold p_nonzero.
  destruct (Qeq_bool x 0) eqn:Heq; [| reflexivity].
  apply Qeq_bool_iff in Heq. rewrite Heq in Hpos.
  exfalso. exact (Qlt_irrefl 0 Hpos).
Qed.

(** ** The spec-modelled normalisation *)

Lemma normalize_bmhk_fields (inp inp' : Inputs) (os : list Z) :
  normalize_bmhk inp = inr (inp', os) ->
  attn_bias inp' = attn_bias inp /\ p inp' = p inp /\ scale inp' = scale inp.
Proof.
  unfold normalize_bmhk.
  destruct (negb _); [discriminate |].
  destruct (negb _); [discriminate |].
  destruct (py_index (shape (query inp)) (-1)) as [e | qk]; [discriminate |].
  destruct (py_index (shape (key inp)) (-1)) as [e | kk]; [discriminate |].
  destruct (py_index (shape (value inp)) (-1)) as [e | vk]; [discriminate |].
  simpl. destruct (negb (qk =? kk)); [discriminate |].
  destruct (ndim (query inp) =? 3); intros H; inversion H; subst; simpl; auto.
Qed.

Lemma normalize_bmhk_rank4 (inp inp' : Inputs) (os : list Z) :
  normalize_bmhk inp = inr (inp', os) ->
  exists b m h k_, shape (query inp') = [b; m; h; k_].
Proof.
  unfold normalize_bmhk.
  destruct (negb _); [discriminate |].
  destruct (negb (_ || _)) eqn:Hrank; [discriminate |].
  destruct (py_index (shape (query inp)) (-1)) as [e | qk]; [discriminate |].
  destruct (py_index (shape (key inp)) (-1)) as [e | kk]; [discriminate |].
  destruct (py_index (shape (value inp)) (-1)) as [e | vk]; [discriminate |].
  simpl. destruct (negb (qk =? kk)); [discriminate |].
  apply negb_false_iff in Hrank. apply orb_true_iff in Hrank.
  unfold ndim in *.
  assert (Hlen : List.length (shape (query inp)) = 3%nat
                 \/ List.length (shape (query inp)) = 4%nat).
  { destruct Hrank as [H | H]; apply Z.eqb_eq in H; lia. }
  clear Hrank.
  destruct (shape (query inp)) as [| b [| m [| x [| y [| z rest]]]]] eqn:Hs;
    simpl in Hlen; try (exfalso; lia).
  - (* rank 3 *)
    simpl. intros H. inversion H; subst. simpl. rewrite Hs. simpl. eauto.
  - (* rank 4 *)
    simpl. intros H. inversion H; subst. rewrite Hs. eauto.
Qed.

(** ** Flash operator support *)

Section FlashSupport.

Variable E : Env.

Lemma BwOp_supports_inv (d : Inputs) :
  BwOp.supports E d = inr true ->
  FwOp.supports E d = inr true /\
  exists kk qk,
    py_index (shape (key d)) (-1) = inr kk /\
    py_index (shape (query d)) (-1) = inr qk /\
    (64 <? Z.max kk qk) &&
    negb ((fst (get_device_capability E (inp_device d)) =? 8)
          && (snd (get_device_capability E (inp_device d)) =? 0)) = false.
Proof.
  unfold BwOp.supports. intros H.
  apply bindR_inr in H. destruct H as [b [Hfw H]].
  destruct b; simpl in H; [| discriminate].
  split; [exact Hfw |].
  apply bindR_inr in H. destruct H as [kk [Hk H]].
  apply bindR_inr in H. destruct H as [qk [Hq H]].
  exists kk, qk. repeat split; auto.
  destruct ((64 <? Z.max kk qk) && _); [discriminate | reflexivity].
Qed.

End FlashSupport.

(** C10: whenever the flash backward operator accepts an input, the flash
    forward operator accepts it too, and a head dimension above 64 is only
    accepted on a device of capability (8, 0); the inclusion is strict: some
    input is accepted forward and refused backward. *)
Theorem flash_bw_supports_implies_fw_supports (E : Env) (d : Inputs) :
  BwOp.supports E d = inr true ->
  FwOp.supports E d = inr true
  /\ (forall kk qk,
        py_index (shape (key d)) (-1) = inr kk ->
        py_index (shape (query d)) (-1) = inr qk ->
        64 < Z.max kk qk ->
        get_device_capability E (inp_device d) = (8, 0))
  /\ (exists E' d',
        FwOp.supports E' d' = inr true /\ BwOp.supports E' d' = inr false).
Proof.
  intros H. apply BwOp_supports_inv in H.
  destruct H as [Hfw [kk [qk [Hk [Hq Hcap]]]]].
  split; [exact Hfw | split].
  - intros kk' qk' Hk' Hq' Hbig.
    rewrite Hk in Hk'. rewrite Hq in Hq'.
    inversion Hk'; inversion Hq'; subst kk' qk'.
    apply andb_false_iff in Hcap. destruct Hcap as [Hsmall | Hsm80].
    + apply Z.ltb_ge in Hsmall. lia.
    + apply negb_false_iff in Hsm80. apply andb_true_iff in Hsm80.
      destruct Hsm80 as [Hmaj Hmin].
      apply Z.eqb_eq in Hmaj. apply Z.eqb_eq in Hmin.
      destruct (get_device_capability E (inp_device d)) as [major minor].
      simpl in *. congruence.
  - exists Sample.t4, (mkInputs Sample.q128 Sample.k128 Sample.v128 BiasNone 0 None).
    split; reflexivity.
Qed.

Lemma flash_bw_supports_implies_fw_supports_witness :
  BwOp.supports Sample.a100
    (mkInputs Sample.q128 Sample.k128 Sample.v128 BiasNone 0 None) = inr true
  /\ FwOp.supports Sample.a100
       (mkInputs Sample.q128 Sample.k128 Sample.v128 BiasNone 0 None) = inr true.
Proof.
  split.
  - reflexivity.
  - apply (flash_bw_supports_implies_fw_supports Sample.a100
             (mkInputs Sample.q128 Sample.k128 Sample.v128 BiasNone 0 None)).
    reflexivity.
Defined.

(** ** Public entry points *)

(** C6: when none of query, key and value requires a gradient, the
    differentiable entry point is the same computation as the forward-only
    entry point run with the forward half of the operator pair: same result,
    same final state, same log of invocations, so the autograd bridge is not
    entered. *)
Theorem memory_efficient_attention_fast_path
  (E : Env) (query_ key_ value_ : Tensor) (attn_bias_ : AttnBias) (p_ : Q)
  (scale_ : option Q) (op : option AttentionOp) (w : World) :
  requires_grad query_ = false ->
  requires_grad key_ = false ->
  requires_grad value_ = false ->
  memory_efficient_attention E query_ key_ value_ attn_bias_ p_ scale_ op w
  = memory_efficient_attention_forward E query_ key_ value_ attn_bias_ p_ scale_
      (fw_half op) w.
Proof.
  intros Hq Hk Hv.
  unfold memory_efficient_attention, memory_efficient_attention_forward,
    _memory_efficient_attention.
  simpl. rewrite Hq, Hk, Hv. reflexivity.
Qed.

Lemma memory_efficient_attention_fast_path_witness :
  memory_efficient_attention Sample.a100 Sample.q Sample.k Sample.v BiasNone
    Sample.dropout None (Some (Some flash_FwOp, Some flash_BwOp)) Sample.w0
  = memory_efficient_attention_forward Sample.a100 Sample.q Sample.k Sample.v
      BiasNone Sample.dropout None (Some flash_FwOp) Sample.w0
  /\ ~ In EvAutogradApply
       (trace (fst (memory_efficient_attention Sample.a100 Sample.q Sample.k
                      Sample.v BiasNone Sample.dropout None
                      (Some (Some flash_FwOp, Some flash_BwOp)) Sample.w0))).
Proof.
  split.
  - apply (memory_efficient_attention_fast_path Sample.a100 Sample.q Sample.k
             Sample.v BiasNone Sample.dropout None
             (Some (Some flash_FwOp, Some flash_BwOp)) Sample.w0);
      reflexivity.
  - vm_compute. intros [H | [H | []]]; discriminate.
Defined.


(** ** The autograd bridge *)

Ltac inv_bind H :=
  let w1 := fresh "w" in
  let a := fresh "a" in
  let Hm := fresh "Hm" in
  apply bindM_inr in H; destruct H as [w1 [a [Hm H]]].

Tactic Notation "bind_inv" hyp(H) "as" ident(w) ident(a) ident(Hm) :=
  apply bindM_inr in H; destruct H as [w [a [Hm H]]].

Ltac inv_lift H :=
  let Hw := fresh "Hw" in
  let Hr := fresh "Hr" in
  apply liftR_inr in H; destruct H as [Hw Hr]; subst.

Section Bridge.

Variable E : Env.

Lemma forward_requires_grad_fields (inp inp' : Inputs) (op : option FwOpId)
  (w w1 : World) (x : Tensor * Context) :
  _memory_efficient_attention_forward_requires_grad E inp op w
    = (w1, inr (inp', x)) ->
  attn_bias inp' = attn_bias inp /\ p inp' = p inp /\ scale inp' = scale inp.
Proof.
  unfold _memory_efficient_attention_forward_requires_grad. intros H.
  inv_bind H. inv_lift Hm. destruct a as [inp1 os].
  inv_bind H. inv_bind H.
  destruct (snd a0) as [c |].
  - inv_bind H. inversion H; subst.
    eapply normalize_bmhk_fields; eauto.
  - discriminate.
Qed.

Lemma forward_run (flags : list bool) (op : option AttentionOp)
  (args : list PyVal) (w w1 : World) (inp inp' : Inputs) (out_ : Tensor)
  (op_ctx : Context) :
  Inputs_of_args args = inr inp ->
  _memory_efficient_attention_forward_requires_grad E inp (fw_half op) w
    = (w1, inr (inp', (out_, op_ctx))) ->
  _fMHA.forward E flags op args w
  = match _fMHA.resolve_op_bw (bw_half op) (op_bw op_ctx) with
    | inl e => (w1, inl e)
    | inr recorded =>
        (w1, inr (out_, stored_ctx flags op args inp' op_ctx recorded))
    end.
Proof.
  intros Hargs Hfw. unfold _fMHA.forward.
  unfold bindM at 1. unfold liftR at 1. rewrite Hargs.
  unfold bindM at 1. rewrite Hfw.
  unfold stored_ctx.
  destruct (_fMHA.split_attn_bias (attn_bias inp')) as [t c].
  unfold bindM, liftR.
  destruct (_fMHA.resolve_op_bw (bw_half op) (op_bw op_ctx)); reflexivity.
Qed.

Lemma forward_inv (flags : list bool) (op : option AttentionOp)
  (args : list PyVal) (w w' : World) (out_ : Tensor) (fctx : FunctionCtx) :
  _fMHA.forward E flags op args w = (w', inr (out_, fctx)) ->
  exists inp inp' op_ctx recorded,
    Inputs_of_args args = inr inp
    /\ _memory_efficient_attention_forward_requires_grad E inp (fw_half op) w
       = (w', inr (inp', (out_, op_ctx)))
    /\ _fMHA.resolve_op_bw (bw_half op) (op_bw op_ctx) = inr recorded
    /\ fctx = stored_ctx flags op args inp' op_ctx recorded.
Proof.
  intros H. pose proof H as Hrun. unfold _fMHA.forward in H.
  inv_bind H. inv_lift Hm. rename a into inp.
  inv_bind H. destruct a as [inp' [o op_ctx]].
  rewrite (forward_run flags op args _ _ inp inp' o op_ctx Hr Hm) in Hrun.
  destruct (_fMHA.resolve_op_bw (bw_half op) (op_bw op_ctx)) as [e | recorded] eqn:Hres;
    [discriminate |].
  inversion Hrun; subst.
  exists inp, inp', op_ctx, recorded. auto.
Qed.

Lemma Inputs_of_args_length (args : list PyVal) (inp : Inputs) :
  Inputs_of_args args = inr inp ->
  (3 <= List.length args <= 6)%nat
  /\ exists q_ k_ v_ rest,
       args = PyTensor q_ :: PyTensor k_ :: PyTensor v_ :: rest.
Proof.
  unfold Inputs_of_args. intros H.
  destruct args as [| [| q_ | |] [| [| k_ | |] [| [| v_ | |] rest]]];
    try discriminate.
  split; [| eauto].
  destruct rest as [| a [| b [| c [| d rest]]]]; simpl; try lia.
  discriminate.
Qed.

End Bridge.

Lemma BwOpId_eqb_eq (a b : BwOpId) : BwOpId_eqb a b = true <-> a = b.
Proof. destruct a, b; simpl; split; intros H; congruence. Qed.

Lemma py_index_nat {A} (l : list A) (i : nat) (x : A) :
  nth_error l i = Some x -> py_index l (Z.of_nat i) = inr x.
Proof.
  intros H. unfold py_index.
  assert (Hlt : (i < List.length l)%nat).
  { apply nth_error_Some. congruence. }
  destruct (Z.of_nat i <? 0) eqn:Hneg; [apply Z.ltb_lt in Hneg; lia |].
  rewrite Hneg. simpl.
  destruct (Z.of_nat (List.length l) <=? Z.of_nat i) eqn:Hge;
    [apply Z.leb_le in Hge; lia |].
  rewrite Nat2Z.id, H. reflexivity.
Qed.

Lemma all_not_requested_false (flags : list bool) (idx : list nat) (i : nat) :
  In i idx ->
  nth_error flags i = Some true ->
  (forall j, In j idx -> (j < List.length flags)%nat) ->
  all_not_requested flags idx = inr false.
Proof.
  induction idx as [| j rest IH]; intros Hin Hflag Hbound; [destruct Hin |].
  simpl.
  destruct (nth_error flags j) as [b |] eqn:Hj.
  - rewrite (py_index_nat _ _ _ Hj). simpl.
    destruct b; [reflexivity |].
    destruct Hin as [-> | Hin]; [congruence |].
    apply IH; auto. intros j' Hj'. apply Hbound. right. exact Hj'.
  - exfalso. apply nth_error_None in Hj.
    specialize (Hbound j (or_introl eq_refl)). lia.
Qed.

Lemma gradient_tuple_tail (a b c d : option Tensor) (n i : nat) :
  (4 <= i <= n)%nat ->
  nth_error ([a; b; c; d] ++ repeat None (n - 3)) i = Some None.
Proof.
  intros Hi.
  destruct i as [| [| [| [| j]]]]; try lia.
  simpl. apply nth_error_repeat. lia.
Qed.

Section BridgeClaims.

Variable E : Env.

(** X15: the assertion of [backward] does reject a gradient requested for any
    position it inspects. *)
Lemma backward_rejects_inspected_position (ctx : FunctionCtx) (grad : Tensor)
  (w : World) (i : nat) :
  (n_args ctx < List.length (needs_input_grad ctx))%nat ->
  In i (_fMHA.checked_positions ctx) ->
  nth_error (needs_input_grad ctx) i = Some true ->
  _fMHA.backward E ctx grad w = (w, inl (AssertionError _fMHA.msg_qkv_only)).
Proof.
  intros Hlen Hin Hflag. unfold _fMHA.backward.
  rewrite (all_not_requested_false _ _ i Hin Hflag).
  - reflexivity.
  - intros j Hj. unfold _fMHA.checked_positions in Hj.
    apply filter_In in Hj. destruct Hj as [Hj _].
    apply in_seq in Hj. lia.
Qed.

(** C3: when the context of the forward operator pins a backward operator,
    a different operator given by the caller makes [forward] fail with the
    conflict error, and otherwise (none given, or the pinned one given)
    [forward] records the pinned operator for backward. *)
Theorem forward_records_pinned_op_bw (flags : list bool)
  (op : option AttentionOp) (args : list PyVal) (w w1 : World)
  (inp inp' : Inputs) (out_ : Tensor) (op_ctx : Context) (pinned : BwOpId) :
  Inputs_of_args args = inr inp ->
  _memory_efficient_attention_forward_requires_grad E inp (fw_half op) w
    = (w1, inr (inp', (out_, op_ctx))) ->
  op_bw op_ctx = Some pinned ->
  (forall given, bw_half op = Some given -> given <> pinned ->
     _fMHA.forward E flags op args w = (w1, inl (ValueError _fMHA.msg_op_bw))
     /\ is_UnsupportedConfigurationError (ValueError _fMHA.msg_op_bw) = true)
  /\ (bw_half op = None \/ bw_half op = Some pinned ->
      exists fctx,
        _fMHA.forward E flags op args w = (w1, inr (out_, fctx))
        /\ ctx_op_bw fctx = Some pinned).
Proof.
  intros Hargs Hfw Hpin.
  rewrite (forward_run E flags op args w w1 inp inp' out_ op_ctx Hargs Hfw).
  rewrite Hpin. split.
  - intros given Hgiven Hneq. rewrite Hgiven. simpl.
    destruct (BwOpId_eqb given pinned) eqn:Heq.
    + apply BwOpId_eqb_eq in Heq. contradiction.
    + simpl. auto.
  - intros [Hnone | Hsame].
    + rewrite Hnone. simpl. eexists. split; reflexivity.
    + rewrite Hsame. simpl.
      assert (Heq : BwOpId_eqb pinned pinned = true) by (apply BwOpId_eqb_eq; reflexivity).
      rewrite Heq. simpl. eexists. split; reflexivity.
Qed.

(** C5, amended: [forward] never populates both parts of the stored bias;
    exactly one is populated when the bias is not none and neither when it
    is none; the tensor part is the populated one exactly for a tensor
    bias; and [deserialize_bias] on the stored pair gives back the bias of
    the call, which is the bias of the operands re-created by [backward]. *)
Theorem forward_bias_split_roundtrip (flags : list bool)
  (op : option AttentionOp) (args : list PyVal) (w w' : World)
  (out_ : Tensor) (fctx : FunctionCtx) :
  _fMHA.forward E flags op args w = (w', inr (out_, fctx)) ->
  exists inp,
    Inputs_of_args args = inr inp
    /\ _fMHA.tensor_part_populated (saved_attn_bias_tensor (saved_tensors fctx))
       && _fMHA.plain_part_populated (attn_bias_ctx fctx) = false
    /\ xorb (_fMHA.tensor_part_populated (saved_attn_bias_tensor (saved_tensors fctx)))
            (_fMHA.plain_part_populated (attn_bias_ctx fctx))
       = negb (bias_is_None (attn_bias inp))
    /\ _fMHA.tensor_part_populated (saved_attn_bias_tensor (saved_tensors fctx))
       = isinstance_Tensor (attn_bias inp)
    /\ _fMHA.deserialize_bias (attn_bias_ctx fctx)
         (saved_attn_bias_tensor (saved_tensors fctx)) = attn_bias inp
    /\ attn_bias (_fMHA.saved_inputs fctx) = attn_bias inp.
Proof.
  intros H. apply forward_inv in H.
  destruct H as [inp [inp' [op_ctx [recorded [Hargs [Hfw [_ ->]]]]]]].
  exists inp. split; [exact Hargs |].
  apply forward_requires_grad_fields in Hfw. destruct Hfw as [Hb _].
  unfold _fMHA.saved_inputs, stored_ctx. simpl. rewrite Hb.
  destruct (attn_bias inp) as [| t | m]; simpl; auto 6.
Qed.

(** C9: when the assertion passes and the backward operator returns
    [grads], [backward] returns a tuple with one entry per argument of
    [_fMHA.apply] (the operator pair and the positional arguments): null
    for the operator pair, [dq], [dk], [dv] for query, key and value, and
    null for every later position, so for every non-tensor argument. *)
Theorem backward_gradient_tuple (op : option AttentionOp) (args : list PyVal)
  (w0 w1 : World) (out_ : Tensor) (fctx : FunctionCtx) (grad : Tensor)
  (w w' : World) (grads : Gradients) :
  _fMHA.apply E op args w0 = (w1, inr (out_, fctx)) ->
  all_not_requested (needs_input_grad fctx) (_fMHA.checked_positions fctx)
    = inr true ->
  _memory_efficient_attention_backward E (_fMHA.saved_context fctx)
    (_fMHA.saved_inputs fctx) grad (ctx_op_bw fctx) w = (w', inr grads) ->
  exists tup,
    _fMHA.backward E fctx grad w = (w', inr tup)
    /\ List.length tup = S (List.length args)
    /\ nth_error tup 0 = Some None
    /\ nth_error tup 1 = Some (Some (dq grads))
    /\ nth_error tup 2 = Some (Some (dk grads))
    /\ nth_error tup 3 = Some (Some (dv grads))
    /\ (forall i, (4 <= i <= List.length args)%nat -> nth_error tup i = Some None)
    /\ (forall i v, nth_error args i = Some v ->
                    (forall t, v <> PyTensor t) ->
                    nth_error tup (S i) = Some None).
Proof.
  intros Happly Hassert Hbw.
  unfold _fMHA.apply in Happly. inv_bind Happly.
  apply forward_inv in Happly.
  destruct Happly as [inp [inp' [op_ctx [recorded [Hargs [_ [_ Hctx]]]]]]].
  assert (Hn : n_args fctx = List.length args) by (subst fctx; reflexivity).
  apply Inputs_of_args_length in Hargs.
  destruct Hargs as [Hlen [q_ [k_ [v_ [rest Hshape]]]]].
  exists ([None; Some (dq grads); Some (dk grads); Some (dv grads)]
          ++ repeat None (n_args fctx - 3)).
  split; [| split; [| split; [| split; [| split; [| split; [| split]]]]]].
  - unfold _fMHA.backward. unfold bindM at 1. unfold liftR at 1.
    rewrite Hassert. unfold bindM at 1. unfold py_assert, ret at 1.
    unfold bindM. rewrite Hbw. reflexivity.
  - rewrite length_app, repeat_length, Hn. simpl. lia.
  - reflexivity.
  - reflexivity.
  - reflexivity.
  - reflexivity.
  - intros i Hi. apply gradient_tuple_tail. lia.
  - intros i v Hi Hnt.
    rewrite Hshape in Hi.
    destruct i as [| [| [| j]]]; simpl in Hi.
    + inversion Hi. exfalso. eapply Hnt. eauto.
    + inversion Hi. exfalso. eapply Hnt. eauto.
    + inversion Hi. exfalso. eapply Hnt. eauto.
    + apply gradient_tuple_tail.
      assert (S (S (S j)) < List.length args)%nat.
      { rewrite Hshape. simpl.
        assert (j < List.length rest)%nat by (apply nth_error_Some; congruence).
        lia. }
      lia.
Qed.

End BridgeClaims.

Lemma forward_records_pinned_op_bw_witness :
  _fMHA.forward Sample.a100 [] (Some (None, Some cutlass_BwOp))
    Sample.args_dropout Sample.w0
  = (Sample.w_fw, inl (ValueError _fMHA.msg_op_bw))
  /\ exists fctx,
       _fMHA.forward Sample.a100 [] (Some (None, Some flash_BwOp))
         Sample.args_dropout Sample.w0
       = (Sample.w_fw, inr (Sample.out_fw, fctx))
       /\ ctx_op_bw fctx = Some flash_BwOp.
Proof.
  split.
  - apply (proj1 (forward_records_pinned_op_bw Sample.a100 []
                    (Some (None, Some cutlass_BwOp)) Sample.args_dropout
                    Sample.w0 Sample.w_fw Sample.inp_dropout Sample.inp_dropout
                    Sample.out_fw Sample.ctx_fw flash_BwOp
                    eq_refl eq_refl eq_refl) cutlass_BwOp eq_refl).
    intros H. discriminate H.
  - apply (proj2 (forward_records_pinned_op_bw Sample.a100 []
                    (Some (None, Some flash_BwOp)) Sample.args_dropout
                    Sample.w0 Sample.w_fw Sample.inp_dropout Sample.inp_dropout
                    Sample.out_fw Sample.ctx_fw flash_BwOp
                    eq_refl eq_refl eq_refl)).
    right. reflexivity.
Defined.

(** The claim C5 as stated, at a call without bias: neither part of the
    stored bias is populated. *)
Lemma forward_bias_none_populates_neither_part :
  ~ (forall (E : Env) (flags : list bool) (op : option AttentionOp)
            (args : list PyVal) (w w' : World) (out_ : Tensor)
            (fctx : FunctionCtx) (inp : Inputs),
        Inputs_of_args args = inr inp ->
        _fMHA.forward E flags op args w = (w', inr (out_, fctx)) ->
        xorb (_fMHA.tensor_part_populated
                (saved_attn_bias_tensor (saved_tensors fctx)))
             (_fMHA.plain_part_populated (attn_bias_ctx fctx)) = true
        /\ _fMHA.deserialize_bias (attn_bias_ctx fctx)
             (saved_attn_bias_tensor (saved_tensors fctx)) = attn_bias inp).
Proof.
  intros H.
  destruct (H Sample.a100 [] None Sample.args_dropout Sample.w0 Sample.w_fw
              Sample.out_fw
              (stored_ctx [] None Sample.args_dropout Sample.inp_dropout
                 Sample.ctx_fw (Some flash_BwOp))
              Sample.inp_dropout eq_refl eq_refl) as [Hxor _].
  simpl in Hxor. discriminate Hxor.
Qed.

Lemma forward_bias_split_roundtrip_witness :
  exists inp,
    Inputs_of_args Sample.args_causal = inr inp
    /\ _fMHA.tensor_part_populated
         (saved_attn_bias_tensor (saved_tensors Sample.fctx_causal))
       && _fMHA.plain_part_populated (attn_bias_ctx Sample.fctx_causal) = false
    /\ xorb (_fMHA.tensor_part_populated
               (saved_attn_bias_tensor (saved_tensors Sample.fctx_causal)))
            (_fMHA.plain_part_populated (attn_bias_ctx Sample.fctx_causal))
       = negb (bias_is_None (attn_bias inp))
    /\ _fMHA.tensor_part_populated
         (saved_attn_bias_tensor (saved_tensors Sample.fctx_causal))
       = isinstance_Tensor (attn_bias inp)
    /\ _fMHA.deserialize_bias (attn_bias_ctx Sample.fctx_causal)
         (saved_attn_bias_tensor (saved_tensors Sample.fctx_causal))
       = attn_bias inp
    /\ attn_bias (_fMHA.saved_inputs Sample.fctx_causal) = attn_bias inp.
Proof.
  apply (forward_bias_split_roundtrip Sample.a100 [] None Sample.args_causal
           Sample.w0 Sample.w_causal Sample.out_fw Sample.fctx_causal).
  reflexivity.
Defined.

Lemma backward_gradient_tuple_witness :
  exists tup,
    _fMHA.backward Sample.a100 Sample.fctx_dropout Sample.grad Sample.w_apply
    = (Sample.w_bw, inr tup)
    /\ List.length tup = 7%nat
    /\ nth_error tup 0 = Some None
    /\ nth_error tup 1 = Some (Some (dq Sample.grads_bw))
    /\ nth_error tup 2 = Some (Some (dk Sample.grads_bw))
    /\ nth_error tup 3 = Some (Some (dv Sample.grads_bw))
    /\ (forall i, (4 <= i <= 6)%nat -> nth_error tup i = Some None)
    /\ (forall i v, nth_error Sample.args_dropout i = Some v ->
                    (forall t, v <> PyTensor t) ->
                    nth_error tup (S i) = Some None).
Proof.
  apply (backward_gradient_tuple Sample.a100 None Sample.args_dropout Sample.w0
           Sample.w_apply Sample.out_fw Sample.fctx_dropout Sample.grad
           Sample.w_apply Sample.w_bw Sample.grads_bw);
    reflexivity.
Defined.

(** C4, at the failing input: [backward] inspects the positions
    [0 .. n_args - 1] outside query, key and value, so never the last
    argument of [_fMHA.apply], which has index [n_args].  With a gradient
    requested for that argument ([scale], index 6 of 7) the assertion passes
    and [backward] returns a null gradient in its position. *)
Theorem backward_overlooks_last_argument :
  (forall ctx : FunctionCtx, ~ In (n_args ctx) (_fMHA.checked_positions ctx))
  /\ nth_error (needs_input_grad Sample.fctx_scale_requested) 6 = Some true
  /\ n_args Sample.fctx_scale_requested = 6%nat
  /\ exists w' tup,
       _fMHA.backward Sample.a100 Sample.fctx_scale_requested Sample.grad
         Sample.w0 = (w', inr tup)
       /\ List.length tup = 7%nat
       /\ nth_error tup 6 = Some None.
Proof.
  split; [| split; [reflexivity | split; [reflexivity |]]].
  - intros ctx Hin. unfold _fMHA.checked_positions in Hin.
    apply filter_In in Hin. destruct Hin as [Hin _].
    apply in_seq in Hin. lia.
  - eexists. eexists. split; [vm_compute; reflexivity | split; reflexivity].
Qed.

(** ** The flash operators and the random generator *)

Ltac inv_bindR H :=
  let a := fresh "a" in
  let Hr := fresh "Hr" in
  apply bindR_inr in H; destruct H as [a [Hr H]].

Lemma _convert_input_format_fields (E : Env) (inp inp' : Inputs)
  (sc : SoftmaxScale) (cu_q cu_k : list Z) (mq mk : Z) :
  _convert_input_format E inp = inr (inp', sc, cu_q, mq, cu_k, mk) ->
  p inp' = p inp /\ attn_bias inp' = attn_bias inp.
Proof.
  unfold _convert_input_format. intros H.
  do 12 inv_bindR H.
  inversion H; subst. simpl. auto.
Qed.

Lemma torch_empty_inv (s : list Z) (dt : DType) (dev : Device) (w w' : World)
  (t : Tensor) :
  torch_empty s dt dev w = (w', inr t) -> rng w' = rng w /\ trace w' = trace w.
Proof. unfold torch_empty. intros H. inversion H; subst. simpl. auto. Qed.

Lemma call_fwd_kernel_inv (E : Env) (args : FwdArgs) (w w' : World)
  (r : Tensor * Z) :
  call_fwd_kernel E args w = (w', inr r) ->
  trace w' = trace w ++ [EvFlashFwdKernel (rng w) (fa_p args)].
Proof.
  unfold call_fwd_kernel.
  destruct (_C_flashattention_fwd E) as [kern |]; [| discriminate].
  destruct (kern args (rng w)) as [r' res]. intros H. inversion H; subst.
  reflexivity.
Qed.

Lemma call_bwd_kernel_inv (E : Env) (args : BwdArgs) (w w' : World)
  (r : Z * Z * Z) :
  call_bwd_kernel E args w = (w', inr r) ->
  trace w' = trace w ++ [EvFlashBwdKernel (rng w) (ba_p args)].
Proof.
  unfold call_bwd_kernel.
  destruct (_C_flashattention_bwd E) as [kern |]; [| discriminate].
  destruct (kern args (rng w)) as [r' res]. intros H. inversion H; subst.
  reflexivity.
Qed.

Section FlashRng.

Variable E : Env.

(** C8: a forward execution of the flash operator with p > 0 that returns
    does so with a context whose [rng_state] is the generator state at the
    call, read before the kernel ran (the kernel is the only step that
    touches the generator, and it ran under that state), and whose [op_bw]
    is the flash backward operator. *)
Theorem flash_forward_checkpoints_rng (inp : Inputs) (needs_gradient : bool)
  (w w' : World) (o : Tensor) (c : option Context) :
  (0 < p inp)%Q ->
  FwOp.apply E inp needs_gradient w = (w', inr (o, c)) ->
  exists ctx,
    c = Some ctx
    /\ rng_state ctx = Some (rng w)
    /\ op_bw ctx = Some flash_BwOp
    /\ trace w' = trace w ++ [EvFlashFwdKernel (rng w) (p inp)].
Proof.
  intros Hpos H. apply p_nonzero_of_pos in Hpos.
  unfold FwOp.apply in H.
  destruct (negb (bias_is_None (attn_bias inp)) && _); [discriminate |].
  bind_inv H as w1 out_shape H1. apply liftR_inr in H1. destruct H1 as [-> _].
  bind_inv H as w2 conv H2. apply liftR_inr in H2. destruct H2 as [-> Hconv].
  destruct conv as [[[[[inp1 sc] cu_q] mq] cu_k] mk].
  apply _convert_input_format_fields in Hconv. destruct Hconv as [Hp _].
  bind_inv H as w3 e_shape H3. apply liftR_inr in H3. destruct H3 as [-> _].
  bind_inv H as w4 out_ H4. apply torch_empty_inv in H4. destruct H4 as [Hrng Htr].
  rewrite Hp, Hpos in H.
  bind_inv H as w5 saved H5.
  unfold bindM, get_rng_state, ret in H5. inversion H5; subst w5 saved. clear H5.
  bind_inv H as w6 res H6. destruct res as [softmax_lse written].
  apply call_fwd_kernel_inv in H6. simpl in H6.
  bind_inv H as w7 out2 H7. apply liftR_inr in H7. destruct H7 as [-> _].
  unfold ret in H. inversion H; subst.
  eexists. split; [reflexivity |]. simpl.
  rewrite Hrng. repeat split.
  rewrite H6, Htr, Hrng. reflexivity.
Qed.

Lemma allocate_gradients_inv (single_qkv : bool) (inp : Inputs)
  (w w1 : World) (grads : Gradients) :
  (if single_qkv then
     s <- liftR (q0 <~ py_index (shape (query inp)) 0 ;;
                 q1 <~ py_index (shape (query inp)) 1 ;;
                 q2 <~ py_index (shape (query inp)) 2 ;;
                 ok [q0; 3; q1; q2])%res ;;
     chunk <- torch_empty s (dtype (query inp)) (inp_device inp) ;;
     ret (mkGradients (BwOp.select1 chunk) (BwOp.select1 chunk)
                      (BwOp.select1 chunk))
   else
     dq_ <- torch_empty_like (query inp) ;;
     dk_ <- torch_empty_like (key inp) ;;
     dv_ <- torch_empty_like (value inp) ;;
     ret (mkGradients dq_ dk_ dv_))%M w = (w1, inr grads) ->
  rng w1 = rng w /\ trace w1 = trace w.
Proof.
  destruct single_qkv; intros H.
  - bind_inv H as w2 s H2. apply liftR_inr in H2. destruct H2 as [-> _].
    bind_inv H as w3 chunk H3. apply torch_empty_inv in H3.
    unfold ret in H. inversion H; subst. exact H3.
  - bind_inv H as w2 dq_ H2. apply torch_empty_inv in H2.
    bind_inv H as w3 dk_ H3. apply torch_empty_inv in H3.
    bind_inv H as w4 dv_ H4. apply torch_empty_inv in H4.
    unfold ret in H. inversion H; subst.
    destruct H2 as [Ha Hb], H3 as [Hc Hd], H4 as [He Hf]. split; congruence.
Qed.

(** C2, amended: a backward execution of the flash operator with p > 0
    that returns has saved the generator state ambient at the call,
    installed the checkpoint of the forward context, run the kernel under
    the checkpoint and then put the saved ambient state back: the state
    after the call is the state before it. *)
Theorem flash_backward_restores_rng_on_return (ctx : Context) (inp : Inputs)
  (grad : Tensor) (w w' : World) (grads : Gradients) :
  (0 < p inp)%Q ->
  BwOp.apply E ctx inp grad w = (w', inr grads) ->
  rng w' = rng w
  /\ exists checkpoint,
       rng_state ctx = Some checkpoint
       /\ trace w' = trace w ++ [EvSetRng checkpoint;
                                 EvFlashBwdKernel checkpoint (p inp);
                                 EvSetRng (rng w)].
Proof.
  intros Hpos H. apply p_nonzero_of_pos in Hpos.
  unfold BwOp.apply in H.
  bind_inv H as w1 conv H1. apply liftR_inr in H1. destruct H1 as [-> Hconv].
  destruct conv as [[[[[inp1 sc] cu_q] mq] cu_k] mk].
  apply _convert_input_format_fields in Hconv. destruct Hconv as [Hp _].
  bind_inv H as w2 kshape H2. apply liftR_inr in H2. destruct H2 as [-> _].
  bind_inv H as w3 single H3. apply liftR_inr in H3. destruct H3 as [-> _].
  bind_inv H as w4 g0 H4. apply allocate_gradients_inv in H4.
  destruct H4 as [Hrng4 Htr4].
  bind_inv H as w5 u H5.
  assert (Hw5 : w5 = w4).
  { unfold py_assert in H5. destruct (existsb _ _); inversion H5; reflexivity. }
  subst w5. clear H5.
  rewrite Hp, Hpos in H.
  bind_inv H as w6 cur H6.
  destruct (rng_state ctx) as [checkpoint |] eqn:Hck; [| discriminate].
  unfold bindM, get_rng_state, set_rng_state, ret in H6.
  inversion H6; subst w6 cur. clear H6.
  bind_inv H as w7 g H7. apply liftR_inr in H7. destruct H7 as [-> _].
  bind_inv H as w8 o H8. apply liftR_inr in H8. destruct H8 as [-> _].
  bind_inv H as w9 res H9. destruct res as [[wq wk] wv].
  apply call_bwd_kernel_inv in H9. simpl in H9.
  bind_inv H as w10 u2 H10.
  unfold set_rng_state in H10. inversion H10; subst w10 u2. clear H10.
  bind_inv H as w11 dq_ H11. apply liftR_inr in H11. destruct H11 as [-> _].
  bind_inv H as w12 dk_ H12. apply liftR_inr in H12. destruct H12 as [-> _].
  bind_inv H as w13 dv_ H13. apply liftR_inr in H13. destruct H13 as [-> _].
  unfold ret in H. inversion H; subst. simpl.
  split; [exact Hrng4 |].
  exists checkpoint. split; [reflexivity |].
  rewrite H9, Htr4, Hrng4. rewrite <- !app_assoc. reflexivity.
Qed.

End FlashRng.

Lemma flash_forward_checkpoints_rng_witness :
  exists ctx,
    Some Sample.ctx_fw = Some ctx
    /\ rng_state ctx = Some (rng Sample.w0)
    /\ op_bw ctx = Some flash_BwOp
    /\ trace (mkWorld 43 101 [EvFlashFwdKernel 42 Sample.dropout])
       = trace Sample.w0 ++ [EvFlashFwdKernel (rng Sample.w0) (p Sample.inp_dropout)].
Proof.
  apply (flash_forward_checkpoints_rng Sample.a100 Sample.inp_dropout true
           Sample.w0 (mkWorld 43 101 [EvFlashFwdKernel 42 Sample.dropout])
           Sample.out_fw (Some Sample.ctx_fw)).
  - reflexivity.
  - reflexivity.
Defined.

(** The claim C2 as stated, at a kernel call that fails: the checkpoint
    (advanced by the kernel) is what the caller finds afterwards. *)
Lemma flash_backward_leaks_rng_on_kernel_failure :
  ~ (forall (E : Env) (ctx : Context) (inp : Inputs) (grad : Tensor) (w : World),
        (0 < p inp)%Q ->
        rng (fst (BwOp.apply E ctx inp grad w)) = rng w).
Proof.
  intros H.
  specialize (H Sample.a100_failing_bwd Sample.ctx_fw Sample.inp_dropout
                Sample.grad Sample.w_ambient eq_refl).
  vm_compute in H. discriminate H.
Qed.

Lemma flash_backward_restores_rng_on_return_witness :
  rng Sample.w_after_bw = rng Sample.w_ambient
  /\ exists checkpoint,
       rng_state Sample.ctx_fw = Some checkpoint
       /\ trace Sample.w_after_bw
          = trace Sample.w_ambient
            ++ [EvSetRng checkpoint;
                EvFlashBwdKernel checkpoint (p Sample.inp_dropout);
                EvSetRng (rng Sample.w_ambient)].
Proof.
  apply (flash_backward_restores_rng_on_return Sample.a100 Sample.ctx_fw
           Sample.inp_dropout Sample.grad Sample.w_ambient Sample.w_after_bw
           Sample.grads_ambient).
  - reflexivity.
  - reflexivity.
Defined.

(** ** Shape validation of the manual backward *)

Lemma validate_backward_shapes_eq (grad : Tensor) (ctx : Context)
  (inp inp' : Inputs) (os : list Z) :
  normalize_bmhk inp = inr (inp', os) ->
  validate_backward_shapes grad ctx inp
  = if ranks_differ grad ctx inp then inl (ValueError msg_ranks)
    else if lse_incompatible ctx (nth 0 (shape (query inp')) 0)
                                 (nth 1 (shape (query inp')) 0)
                                 (nth 2 (shape (query inp')) 0)
         then inl (ValueError msg_lse)
         else inr inp'.
Proof.
  intros Hnorm. unfold validate_backward_shapes, ranks_differ.
  destruct (negb (ndim grad =? ndim (query inp))
            || negb (ndim grad =? ndim (out ctx))); [reflexivity |].
  rewrite Hnorm. simpl bindR.
  destruct (normalize_bmhk_rank4 _ _ _ Hnorm) as [b [m [h [k_ Hq]]]].
  rewrite Hq. unfold lse_incompatible, ndim. simpl nth.
  destruct (shape (lse ctx)) as [| l0 [| l1 [| l2 [| l3 rest]]]] eqn:Hl;
    try reflexivity.
  - (* rank 3 *)
    simpl.
    destruct (l0 =? b); simpl; [| reflexivity].
    destruct (l1 =? h); simpl; [| reflexivity].
    destruct (l2 <? m); reflexivity.
  - (* rank above 3 *)
    assert (Hrank : (Z.of_nat (List.length (l0 :: l1 :: l2 :: l3 :: rest)) =? 3)
                    = false).
    { apply Z.eqb_neq. simpl List.length. lia. }
    rewrite Hrank. reflexivity.
Qed.

Lemma py_index_last_ok {A} (l : list A) :
  l <> [] -> exists x, py_index l (-1) = inr x.
Proof.
  intros Hne. unfold py_index. change (-1 <? 0) with true. cbv beta iota zeta.
  assert (Hlen : (0 < List.length l)%nat).
  { destruct l; [contradiction | simpl; lia]. }
  destruct ((-1 + Z.of_nat (List.length l) <? 0)
            || (Z.of_nat (List.length l) <=? -1 + Z.of_nat (List.length l)))
    eqn:Hout.
  - exfalso. apply orb_true_iff in Hout. destruct Hout as [Hlt | Hle].
    + apply Z.ltb_lt in Hlt. lia.
    + apply Z.leb_le in Hle. lia.
  - destruct (nth_error l (Z.to_nat (-1 + Z.of_nat (List.length l)))) eqn:Hn.
    + unfold ok. eauto.
    + exfalso. apply nth_error_None in Hn. lia.
Qed.

(** Whatever the spec-modelled normalisation raises is a [ValueError]. *)
Lemma normalize_bmhk_error (inp : Inputs) (e : exn) :
  normalize_bmhk inp = inl e -> is_ShapeError e = true.
Proof.
  unfold normalize_bmhk.
  destruct (negb ((ndim (query inp) =? ndim (key inp))
                  && (ndim (key inp) =? ndim (value inp)))) eqn:Hsame.
  { intros H. injection H as <-. reflexivity. }
  destruct (negb ((ndim (query inp) =? 3) || (ndim (query inp) =? 4))) eqn:Hrank.
  { intros H. injection H as <-. reflexivity. }
  apply negb_false_iff, andb_true_iff in Hsame. destruct Hsame as [Hqk Hkv].
  apply Z.eqb_eq in Hqk. apply Z.eqb_eq in Hkv.
  apply negb_false_iff, orb_true_iff in Hrank.
  assert (Hq : 3 <= ndim (query inp)).
  { destruct Hrank as [H | H]; apply Z.eqb_eq in H; lia. }
  assert (Hne : forall t, 3 <= ndim t -> shape t <> []).
  { intros t Ht Hnil. unfold ndim in Ht. rewrite Hnil in Ht. simpl in Ht. lia. }
  assert (Hk : 3 <= ndim (key inp)) by lia.
  assert (Hv : 3 <= ndim (value inp)) by lia.
  destruct (py_index_last_ok (shape (query inp)) (Hne _ Hq)) as [qk ->].
  destruct (py_index_last_ok (shape (key inp)) (Hne _ Hk)) as [kk ->].
  destruct (py_index_last_ok (shape (value inp)) (Hne _ Hv)) as [vk ->].
  simpl. destruct (negb (qk =? kk)).
  - intros H. injection H as <-. reflexivity.
  - destruct (ndim (query inp) =? 3); discriminate.
Qed.

(** The claim C7 as stated, at a key whose head dimension differs from the
    query's: the ranks agree and the log-sum-exp has the expected shape, so
    none of the listed conditions holds, yet the validation fails with a
    shape error, raised by the normalisation of the operands. *)
Lemma backward_validation_fails_on_head_dimension_mismatch :
  ~ (forall (grad : Tensor) (ctx : Context) (inp : Inputs),
        (exists e, validate_backward_shapes grad ctx inp = inl e
                   /\ is_ShapeError e = true)
        <-> (let '(batch, seqlen_q, heads) := query_dims (query inp) in
             ndim grad <> ndim (query inp)
             \/ ndim grad <> ndim (out ctx)
             \/ ndim (lse ctx) <> 3
             \/ nth 0 (shape (lse ctx)) 0 <> batch
             \/ nth 1 (shape (lse ctx)) 0 <> heads
             \/ nth 2 (shape (lse ctx)) 0 < seqlen_q)).
Proof.
  intros H.
  destruct (H Sample.grad Scenario.ctx_plain Scenario.inp_key32) as [Hfails _].
  assert (Hlisted : exists e,
             validate_backward_shapes Sample.grad Scenario.ctx_plain
               Scenario.inp_key32 = inl e /\ is_ShapeError e = true).
  { eexists. split; reflexivity. }
  apply Hfails in Hlisted. vm_compute in Hlisted.
  destruct Hlisted as [Hc | [Hc | [Hc | [Hc | [Hc | Hc]]]]];
    try (apply Hc; reflexivity); discriminate Hc.
Qed.

(** C7, amended: the validation of the manual backward fails exactly when
    the rank of [grad] differs from that of [query] or of [ctx.out], or the
    normalisation of the operands rejects them, or, on the normalised
    operands, [lse] is not of rank 3, or its first dimension is not the
    batch size, or its second is not the number of heads, or its last is
    smaller than the query sequence length (a longer [lse] passes).  Every
    such failure is a [ValueError], the shape error, and makes the whole
    backward call fail with it before any backend runs; when the validation
    passes, it yields the normalised operands. *)
Theorem backward_shape_validation (grad : Tensor) (ctx : Context)
  (inp : Inputs) :
  let lse_rejected (inp' : Inputs) :=
    ndim (lse ctx) <> 3
    \/ nth 0 (shape (lse ctx)) 0 <> nth 0 (shape (query inp')) 0
    \/ nth 1 (shape (lse ctx)) 0 <> nth 2 (shape (query inp')) 0
    \/ nth 2 (shape (lse ctx)) 0 < nth 1 (shape (query inp')) 0 in
  ((exists e, validate_backward_shapes grad ctx inp = inl e)
   <-> (ndim grad <> ndim (query inp)
        \/ ndim grad <> ndim (out ctx)
        \/ (exists e, normalize_bmhk inp = inl e)
        \/ (exists inp' os, normalize_bmhk inp = inr (inp', os)
                            /\ lse_rejected inp')))
  /\ (forall e, validate_backward_shapes grad ctx inp = inl e ->
        is_ShapeError e = true
        /\ forall (E : Env) (op : option BwOpId) (w : World),
             _memory_efficient_attention_backward E ctx inp grad op w
             = (w, inl e))
  /\ (forall inp', validate_backward_shapes grad ctx inp = inr inp' ->
        exists os, normalize_bmhk inp = inr (inp', os)).
Proof.
  intros lse_rejected.
  assert (Hranks : ranks_differ grad ctx inp = true
                   <-> ndim grad <> ndim (query inp)
                       \/ ndim grad <> ndim (out ctx)).
  { unfold ranks_differ.
    rewrite orb_true_iff, !negb_true_iff, !Z.eqb_neq. tauto. }
  assert (Hlse : forall inp',
             lse_incompatible ctx (nth 0 (shape (query inp')) 0)
               (nth 1 (shape (query inp')) 0) (nth 2 (shape (query inp')) 0)
             = true <-> lse_rejected inp').
  { intros inp'. unfold lse_incompatible, lse_rejected.
    rewrite !orb_true_iff, !negb_true_iff, !Z.eqb_neq, Z.ltb_lt. tauto. }
  assert (Hval :
            validate_backward_shapes grad ctx inp
            = if ranks_differ grad ctx inp then inl (ValueError msg_ranks)
              else match normalize_bmhk inp with
                   | inl e => inl e
                   | inr (inp', _) =>
                       if lse_incompatible ctx (nth 0 (shape (query inp')) 0)
                            (nth 1 (shape (query inp')) 0)
                            (nth 2 (shape (query inp')) 0)
                       then inl (ValueError msg_lse)
                       else inr inp'
                   end).
  { destruct (normalize_bmhk inp) as [e | [inp' os]] eqn:Hnorm.
    - unfold validate_backward_shapes, ranks_differ.
      destruct (negb (ndim grad =? ndim (query inp))
                || negb (ndim grad =? ndim (out ctx))); [reflexivity |].
      rewrite Hnorm. reflexivity.
    - rewrite (validate_backward_shapes_eq grad ctx inp inp' os Hnorm).
      reflexivity. }
  split; [split | split].
  - (* a failure has one of the listed causes *)
    intros [e He]. rewrite Hval in He.
    destruct (ranks_differ grad ctx inp) eqn:Hr.
    + pose proof (proj1 Hranks eq_refl). tauto.
    + destruct (normalize_bmhk inp) as [e' | [inp' os]] eqn:Hnorm.
      * right. right. left. eauto.
      * destruct (lse_incompatible ctx _ _ _) eqn:Hl; [| discriminate].
        right. right. right. exists inp', os. split; [reflexivity |].
        apply Hlse. exact Hl.
  - (* each listed cause is a failure *)
    intros Hcause. rewrite Hval.
    destruct (ranks_differ grad ctx inp) eqn:Hr; [eauto |].
    destruct Hcause as [Hc | [Hc | [[e Hc] | [inp' [os [Hn Hc]]]]]].
    + exfalso. assert (Habs : false = true) by (apply Hranks; auto).
      discriminate Habs.
    + exfalso. assert (Habs : false = true) by (apply Hranks; auto).
      discriminate Habs.
    + rewrite Hc. eauto.
    + rewrite Hn. apply Hlse in Hc. rewrite Hc. eauto.
  - (* the failure is a shape error of the whole call *)
    intros e He. split.
    + rewrite Hval in He.
      destruct (ranks_differ grad ctx inp).
      * injection He as <-. reflexivity.
      * destruct (normalize_bmhk inp) as [e' | [inp' os]] eqn:Hnorm.
        -- injection He as <-. eapply normalize_bmhk_error; eauto.
        -- destruct (lse_incompatible ctx _ _ _); [| discriminate].
           injection He as <-. reflexivity.
    + intros E op w. unfold _memory_efficient_attention_backward.
      unfold bindM at 1. unfold liftR at 1. rewrite He. reflexivity.
  - (* a pass yields the normalised operands *)
    intros inp' Hok. rewrite Hval in Hok.
    destruct (ranks_differ grad ctx inp); [discriminate |].
    destruct (normalize_bmhk inp) as [e' | [inp1 os]]; [discriminate |].
    destruct (lse_incompatible ctx _ _ _); [discriminate |].
    injection Hok as <-. eauto.
Qed.

Lemma backward_shape_validation_witness :
  (* a log-sum-exp truncated to 7 positions: a shape error of the call *)
  is_ShapeError (ValueError msg_lse) = true
  /\ forall (E : Env) (op : option BwOpId) (w : World),
       _memory_efficient_attention_backward E
         (mkContext Sample.out_fw
            (mkTensor [2; 4; 7] float32 Sample.dev0 false 1000 1) None None)
         Scenario.inp_plain Sample.grad op w
       = (w, inl (ValueError msg_lse)).
Proof.
  exact (proj1 (proj2 (backward_shape_validation Sample.grad
           (mkContext Sample.out_fw
              (mkTensor [2; 4; 7] float32 Sample.dev0 false 1000 1) None None)
           Scenario.inp_plain)) (ValueError msg_lse) eq_refl).
Defined.

(** * Further properties of the flash operators and of the bridge *)

Tactic Notation "bindR_inv" hyp(H) "as" ident(a) ident(Ha) :=
  apply bindR_inr in H; destruct H as [a [Ha H]].

Lemma reshape_view_inv (t t' : Tensor) (s : list Z) :
  reshape_view t s = inr t' -> t' = with_shape t s /\ numel (shape t) = numel s.
Proof.
  unfold reshape_view.
  destruct (numel (shape t) =? numel s) eqn:Hn; [| discriminate].
  intros H. inversion H. apply Z.eqb_eq in Hn. auto.
Qed.

Lemma reshape_inv (E : Env) (t t' : Tensor) (s : list Z) :
  reshape E t s = inr t' -> t' = reshaped E t s /\ numel (shape t) = numel s.
Proof.
  unfold reshape.
  destruct (numel (shape t) =? numel s) eqn:Hn; [| discriminate].
  intros H. inversion H. apply Z.eqb_eq in Hn. auto.
Qed.

Lemma wrap_int32_small (z : Z) : - 2 ^ 31 <= z < 2 ^ 31 -> wrap_int32 z = z.
Proof.
  intros Hz. unfold wrap_int32. rewrite Z.mod_small by lia. lia.
Qed.

Lemma arange0_inv (batch step : Z) (l : list Z) :
  arange0 ((batch + 1) * step) step = inr l ->
  0 < step /\ 0 <= batch + 1 /\ (batch + 1) * step <= int64_max
  /\ l = map (fun i => wrap_int32 (Z.of_nat i * step))
             (seq 0 (Z.to_nat (batch + 1))).
Proof.
  unfold arange0.
  destruct ((int64_max <? (batch + 1) * step) || (int64_max <? step)) eqn:Hbig;
    [discriminate |].
  destruct ((step <=? 0) || ((batch + 1) * step <? 0)) eqn:Hbad; [discriminate |].
  apply orb_false_iff in Hbig. destruct Hbig as [Hbig _].
  apply Z.ltb_ge in Hbig.
  apply orb_false_iff in Hbad. destruct Hbad as [Hstep Hstop].
  apply Z.leb_gt in Hstep. apply Z.ltb_ge in Hstop.
  intros H. inversion H. clear H.
  assert (Hb : 0 <= batch + 1) by nia.
  split; [exact Hstep | split; [exact Hb | split; [exact Hbig |]]].
  replace ((batch + 1) * step + step - 1) with ((batch + 1) * step + (step - 1)) by lia.
  rewrite Z.div_add_l by lia.
  rewrite (Z.div_small (step - 1) step) by lia.
  rewrite Z.add_0_r. reflexivity.
Qed.

(** The offsets below 2^31 are stored exactly. *)
Lemma offsets_exact (batch step : Z) :
  0 <= step -> batch * step < 2 ^ 31 ->
  map (fun i => wrap_int32 (Z.of_nat i * step)) (seq 0 (Z.to_nat (batch + 1)))
  = map (fun i => Z.of_nat i * step) (seq 0 (Z.to_nat (batch + 1))).
Proof.
  intros Hstep Hlt. apply map_ext_in. intros i Hi.
  apply in_seq in Hi. apply wrap_int32_small.
  assert (Z.of_nat i <= batch) by lia. nia.
Qed.

Lemma _convert_input_format_inv (E : Env) (inp inp1 : Inputs)
  (sc : SoftmaxScale) (cu_q cu_k : list Z) (mq mk : Z) :
  _convert_input_format E inp = inr (inp1, sc, cu_q, mq, cu_k, mk) ->
  exists batch num_heads head_dim_q head_dim_v,
    py_index (shape (query inp)) 0 = inr batch
    /\ py_index (shape (query inp)) 1 = inr mq
    /\ py_index (shape (key inp)) 1 = inr mk
    /\ py_index (shape (query inp)) 2 = inr num_heads
    /\ py_index (shape (query inp)) 3 = inr head_dim_q
    /\ py_index (shape (value inp)) 3 = inr head_dim_v
    /\ arange0 ((batch + 1) * mk) mk = inr cu_k
    /\ (if mq =? mk then cu_q = cu_k
        else arange0 ((batch + 1) * mq) mq = inr cu_q)
    /\ numel (shape (query inp)) = numel [batch * mq; num_heads; head_dim_q]
    /\ numel (shape (key inp)) = numel [batch * mk; num_heads; head_dim_q]
    /\ numel (shape (value inp)) = numel [batch * mk; num_heads; head_dim_v]
    /\ inp1 = mkInputs
                (reshaped E (query inp) [batch * mq; num_heads; head_dim_q])
                (reshaped E (key inp) [batch * mk; num_heads; head_dim_q])
                (reshaped E (value inp) [batch * mk; num_heads; head_dim_v])
                (attn_bias inp) (p inp) (scale inp)
    /\ match scale inp with
       | Some s => sc = GivenScale s
       | None => exists d, py_index (shape (query inp)) (-1) = inr d
                           /\ d <> 0 /\ sc = InvSqrt d
       end.
Proof.
  unfold _convert_input_format. intros H.
  bindR_inv H as batch Hb. bindR_inv H as sq Hsq. bindR_inv H as sk Hsk.
  bindR_inv H as nh Hnh. bindR_inv H as hq Hhq. bindR_inv H as hv Hhv.
  bindR_inv H as cuk Hcuk. bindR_inv H as cuq Hcuq.
  bindR_inv H as q' Hq'. bindR_inv H as k' Hk'. bindR_inv H as v' Hv'.
  bindR_inv H as sc' Hsc.
  inversion H; subst. clear H.
  apply reshape_inv in Hq', Hk', Hv'.
  destruct Hq' as [-> Hnq], Hk' as [-> Hnk], Hv' as [-> Hnv].
  exists batch, nh, hq, hv.
  repeat (split; [assumption |]).
  split.
  { destruct (mq =? mk); [inversion Hcuq; reflexivity | exact Hcuq]. }
  repeat (split; [assumption |]).
  split; [reflexivity |].
  destruct (scale inp) as [s |].
  - inversion Hsc. reflexivity.
  - bindR_inv Hsc as d Hd. exists d.
    destruct (d =? 0) eqn:Hz; [discriminate |].
    apply Z.eqb_neq in Hz. inversion Hsc. auto.
Qed.

(** X1: on operands of rank 4, a successful [_convert_input_format] yields
    the operands flattened to [batch * seqlen, heads, dim], both sequence
    lengths positive, and batch + 1 cumulative sequence offsets for the keys
    and for the queries: entry [i] is [i * seqlen] stored as a 32-bit
    integer, hence exactly [0, s, 2s, .., batch * s] as long as
    [batch * s] is below 2^31; the bias, [p] and [scale] are carried over
    unchanged. *)
Theorem _convert_input_format_layout (E : Env) (inp inp1 : Inputs)
  (sc : SoftmaxScale) (cu_q cu_k : list Z) (mq mk : Z)
  (B Mq H K Bk Mk Hk Kk Bv Mv Hv Kv : Z) :
  shape (query inp) = [B; Mq; H; K] ->
  shape (key inp) = [Bk; Mk; Hk; Kk] ->
  shape (value inp) = [Bv; Mv; Hv; Kv] ->
  _convert_input_format E inp = inr (inp1, sc, cu_q, mq, cu_k, mk) ->
  mq = Mq /\ mk = Mk /\ 0 < Mq /\ 0 < Mk
  /\ shape (query inp1) = [B * Mq; H; K]
  /\ shape (key inp1) = [B * Mk; H; K]
  /\ shape (value inp1) = [B * Mk; H; Kv]
  /\ cu_k = map (fun i => wrap_int32 (Z.of_nat i * Mk))
                (seq 0 (Z.to_nat (B + 1)))
  /\ cu_q = map (fun i => wrap_int32 (Z.of_nat i * Mq))
                (seq 0 (Z.to_nat (B + 1)))
  /\ (B * Mk < 2 ^ 31 ->
      cu_k = map (fun i => Z.of_nat i * Mk) (seq 0 (Z.to_nat (B + 1))))
  /\ (B * Mq < 2 ^ 31 ->
      cu_q = map (fun i => Z.of_nat i * Mq) (seq 0 (Z.to_nat (B + 1))))
  /\ List.length cu_k = Z.to_nat (B + 1)
  /\ List.length cu_q = Z.to_nat (B + 1)
  /\ attn_bias inp1 = attn_bias inp /\ p inp1 = p inp /\ scale inp1 = scale inp.
Proof.
  intros Eq Ek Ev Hc. apply _convert_input_format_inv in Hc.
  destruct Hc as
    [batch [nh [hq [hv [Hb [Hsq [Hsk [Hnh [Hhq [Hhv [Hcuk [Hcuq
     [_ [_ [_ [-> _]]]]]]]]]]]]]]]].
  rewrite Eq in Hb, Hsq, Hnh, Hhq. rewrite Ek in Hsk. rewrite Ev in Hhv.
  cbv in Hb, Hsq, Hnh, Hhq, Hsk, Hhv.
  injection Hb as <-. injection Hsq as <-. injection Hnh as <-.
  injection Hhq as <-. injection Hsk as <-. injection Hhv as <-.
  apply arange0_inv in Hcuk. destruct Hcuk as [Hmk [HB [_ ->]]].
  assert (Hcq : 0 < Mq
                /\ cu_q = map (fun i => wrap_int32 (Z.of_nat i * Mq))
                              (seq 0 (Z.to_nat (B + 1)))).
  { destruct (Mq =? Mk) eqn:Heq.
    - apply Z.eqb_eq in Heq. subst. split; [lia | reflexivity].
    - apply arange0_inv in Hcuq. tauto. }
  destruct Hcq as [Hmq ->].
  simpl. rewrite !length_map, !length_seq.
  repeat split; auto.
  - intros Hlt. apply offsets_exact; lia.
  - intros Hlt. apply offsets_exact; lia.
Qed.

Lemma torch_empty_full (s : list Z) (dt : DType) (dev : Device) (w w' : World)
  (t : Tensor) :
  torch_empty s dt dev w = (w', inr t) ->
  w' = mkWorld (rng w) (next_ptr w + 1) (trace w)
  /\ t = mkTensor s dt dev false (next_ptr w) 0.
Proof. unfold torch_empty. intros H. inversion H. auto. Qed.

Lemma call_fwd_kernel_full (E : Env) (args : FwdArgs) (w w' : World)
  (r : Tensor * Z) :
  call_fwd_kernel E args w = (w', inr r) ->
  exists kern,
    _C_flashattention_fwd E = Some kern
    /\ kern args (rng w) = (rng w', inr r)
    /\ next_ptr w' = next_ptr w
    /\ trace w' = trace w ++ [EvFlashFwdKernel (rng w) (fa_p args)].
Proof.
  unfold call_fwd_kernel.
  destruct (_C_flashattention_fwd E) as [kern |]; [| discriminate].
  destruct (kern args (rng w)) as [r' res] eqn:Hk. intros H. inversion H; subst.
  exists kern. simpl. auto.
Qed.

Lemma call_bwd_kernel_full (E : Env) (args : BwdArgs) (w w' : World)
  (r : Z * Z * Z) :
  call_bwd_kernel E args w = (w', inr r) ->
  exists kern,
    _C_flashattention_bwd E = Some kern
    /\ kern args (rng w) = (rng w', inr r)
    /\ next_ptr w' = next_ptr w
    /\ trace w' = trace w ++ [EvFlashBwdKernel (rng w) (ba_p args)].
Proof.
  unfold call_bwd_kernel.
  destruct (_C_flashattention_bwd E) as [kern |]; [| discriminate].
  destruct (kern args (rng w)) as [r' res] eqn:Hk. intros H. inversion H; subst.
  exists kern. simpl. auto.
Qed.

Section FlashApply.

Variable E : Env.

(** Everything a returning [FwOp.apply] has done. *)
Lemma FwOp_apply_inv (inp : Inputs) (needs_gradient : bool) (w w' : World)
  (o : Tensor) (c : option Context) :
  FwOp.apply E inp needs_gradient w = (w', inr (o, c)) ->
  exists q0 q1 q2 v3 softmax_lse written,
    bias_is_None (attn_bias inp) || isinstance_LowerTriangularMask (attn_bias inp)
      = true
    /\ py_index (shape (query inp)) 0 = inr q0
    /\ py_index (shape (query inp)) 1 = inr q1
    /\ py_index (shape (query inp)) 2 = inr q2
    /\ py_index (shape (value inp)) 3 = inr v3
    /\ _C_flashattention_fwd E <> None
    /\ next_ptr w' = next_ptr w + 1
    /\ trace w' = trace w ++ [EvFlashFwdKernel (rng w) (p inp)]
    /\ o = mkTensor [q0; q1; q2; v3] (dtype (query inp)) (device (query inp))
                    false (next_ptr w) written
    /\ c = Some (mkContext o softmax_lse
                   (if p_nonzero (p inp) then Some flash_BwOp else None)
                   (if p_nonzero (p inp) then Some (rng w) else None)).
Proof.
  intros H. unfold FwOp.apply in H.
  destruct (negb (bias_is_None (attn_bias inp))
            && negb (isinstance_LowerTriangularMask (attn_bias inp))) eqn:Hbias;
    [discriminate |].
  bind_inv H as w1 out_shape H1. apply liftR_inr in H1. destruct H1 as [-> Hos].
  bindR_inv Hos as q0 Hq0. bindR_inv Hos as q1 Hq1. bindR_inv Hos as q2 Hq2.
  bindR_inv Hos as v3 Hv3. injection Hos as <-.
  bind_inv H as w2 conv H2. apply liftR_inr in H2. destruct H2 as [-> Hconv].
  destruct conv as [[[[[inp1 sc] cu_q] mq] cu_k] mk].
  apply _convert_input_format_inv in Hconv.
  destruct Hconv as [batch [nh [hq [hv Hconv]]]].
  assert (Hinp1 : inp1 = mkInputs
                (reshaped E (query inp) [batch * mq; nh; hq])
                (reshaped E (key inp) [batch * mk; nh; hq])
                (reshaped E (value inp) [batch * mk; nh; hv])
                (attn_bias inp) (p inp) (scale inp)) by tauto.
  clear Hconv. subst inp1. simpl in H.
  bind_inv H as w3 e_shape H3. apply liftR_inr in H3. destruct H3 as [-> _].
  bind_inv H as w4 out_ H4. apply torch_empty_full in H4. destruct H4 as [-> ->].
  bind_inv H as w5 saved H5.
  assert (Hsaved : w5 = mkWorld (rng w) (next_ptr w + 1) (trace w)
                   /\ saved = if p_nonzero (p inp) then Some (rng w) else None).
  { destruct (p_nonzero (p inp)).
    - unfold bindM, get_rng_state, ret in H5. inversion H5. auto.
    - unfold ret in H5. inversion H5. auto. }
  destruct Hsaved as [-> ->]. clear H5.
  bind_inv H as w6 res H6. destruct res as [softmax_lse written].
  apply call_fwd_kernel_full in H6. simpl in H6.
  destruct H6 as [kern [Hkern [_ [Hptr Htr]]]].
  bind_inv H as w7 out2 H7. apply liftR_inr in H7. destruct H7 as [-> Hre].
  apply reshape_view_inv in Hre. destruct Hre as [-> _].
  unfold ret in H. injection H as <- <- <-.
  exists q0, q1, q2, v3, softmax_lse, written.
  split.
  { apply andb_false_iff in Hbias.
    destruct Hbias as [Hb | Hb]; apply negb_false_iff in Hb; rewrite Hb;
      auto using orb_true_r. }
  repeat (split; [assumption |]).
  split; [congruence |].
  split; [exact Hptr |].
  split; [exact Htr |].
  unfold inp_device, with_shape, with_data. simpl.
  split; [reflexivity |].
  destruct (p_nonzero (p inp)); reflexivity.
Qed.

End FlashApply.

Section FlashApplyBackward.

Variable E : Env.

(** Everything a returning [BwOp.apply] has done. *)
Lemma BwOp_apply_inv (ctx : Context) (inp : Inputs) (grad : Tensor)
  (w w' : World) (grads : Gradients) :
  BwOp.apply E ctx inp grad w = (w', inr grads) ->
  exists batch mq mk nh hq hv (single : bool) wq wk wv,
    py_index (shape (query inp)) 0 = inr batch
    /\ py_index (shape (query inp)) 1 = inr mq
    /\ py_index (shape (key inp)) 1 = inr mk
    /\ py_index (shape (query inp)) 2 = inr nh
    /\ py_index (shape (query inp)) 3 = inr hq
    /\ py_index (shape (value inp)) 3 = inr hv
    /\ single = (if negb (batch * mq =? batch * mk) then false
                 else (hq =? hv)
                      && (reshape_storage E (query inp) [batch * mq; nh; hq]
                          =? reshape_storage E (key inp) [batch * mk; nh; hq])
                      && (reshape_storage E (query inp) [batch * mq; nh; hq]
                          =? reshape_storage E (value inp) [batch * mk; nh; hv]))
    /\ existsb (DType_eqb (dtype grad)) (SUPPORTED_DTYPES BwOp.descriptor) = true
    /\ _C_flashattention_bwd E <> None
    /\ (if p_nonzero (p inp)
        then exists checkpoint,
               rng_state ctx = Some checkpoint
               /\ rng w' = rng w
               /\ trace w' = trace w ++ [EvSetRng checkpoint;
                                         EvFlashBwdKernel checkpoint (p inp);
                                         EvSetRng (rng w)]
        else trace w' = trace w ++ [EvFlashBwdKernel (rng w) (p inp)])
    /\ next_ptr w' = next_ptr w + (if single then 1 else 3)
    /\ grads =
       mkGradients
         (mkTensor (shape (query inp)) (dtype (query inp)) (device (query inp))
                   false (next_ptr w) wq)
         (mkTensor (shape (key inp))
                   (dtype (if single then query inp else key inp))
                   (device (if single then query inp else key inp))
                   false (next_ptr w + (if single then 0 else 1)) wk)
         (mkTensor (shape (value inp))
                   (dtype (if single then query inp else value inp))
                   (device (if single then query inp else value inp))
                   false (next_ptr w + (if single then 0 else 2)) wv).
Proof.
  intros H. unfold BwOp.apply in H.
  bind_inv H as w1 conv H1. apply liftR_inr in H1. destruct H1 as [-> Hconv].
  destruct conv as [[[[[inp1 sc] cu_q] mq] cu_k] mk].
  apply _convert_input_format_inv in Hconv.
  destruct Hconv as [batch [nh [hq [hv Hconv]]]].
  destruct Hconv as
    [Hb [Hmq [Hmk [Hnh [Hhq [Hhv [_ [_ [_ [_ [_ [-> _]]]]]]]]]]]].
  simpl in H.
  bind_inv H as w2 kshape H2. apply liftR_inr in H2. destruct H2 as [-> Hks].
  injection Hks as <-.
  bind_inv H as w3 single H3. apply liftR_inr in H3. destruct H3 as [-> Hsingle].
  cbn in Hsingle.
  assert (Hs : single = (if negb (batch * mq =? batch * mk) then false
                         else (hq =? hv)
                              && (reshape_storage E (query inp) [batch * mq; nh; hq]
                                  =? reshape_storage E (key inp) [batch * mk; nh; hq])
                              && (reshape_storage E (query inp) [batch * mq; nh; hq]
                                  =? reshape_storage E (value inp) [batch * mk; nh; hv]))).
  { destruct (negb (batch * mq =? batch * mk)); injection Hsingle as <-; reflexivity. }
  clear Hsingle.
  bind_inv H as w4 g0 H4.
  assert (Halloc :
            w4 = mkWorld (rng w) (next_ptr w + (if single then 1 else 3)) (trace w)
            /\ g0 = mkGradients
                 (mkTensor [batch * mq; nh; hq] (dtype (query inp))
                           (device (query inp)) false (next_ptr w) 0)
                 (mkTensor (if single then [batch * mq; nh; hq]
                            else [batch * mk; nh; hq])
                           (dtype (if single then query inp else key inp))
                           (device (if single then query inp else key inp))
                           false (next_ptr w + (if single then 0 else 1)) 0)
                 (mkTensor (if single then [batch * mq; nh; hq]
                            else [batch * mk; nh; hv])
                           (dtype (if single then query inp else value inp))
                           (device (if single then query inp else value inp))
                           false (next_ptr w + (if single then 0 else 2)) 0)).
  { clear H Hs. destruct single.
    - cbn in H4. unfold bindM, liftR, torch_empty, ret in H4. simpl in H4.
      injection H4 as <- <-. unfold BwOp.select1, with_shape, inp_device. simpl.
      rewrite Z.add_0_r. auto.
    - unfold torch_empty_like, bindM, torch_empty, ret in H4. simpl in H4.
      injection H4 as <- <-. unfold with_shape. simpl.
      replace (next_ptr w + 1 + 1 + 1) with (next_ptr w + 3) by lia.
      replace (next_ptr w + 1 + 1) with (next_ptr w + 2) by lia. auto. }
  destruct Halloc as [-> ->]. clear H4.
  bind_inv H as w5 u H5. unfold py_assert in H5.
  match type of H5 with
  | context [if ?c then _ else _] => destruct c eqn:Hdt; [| discriminate]
  end.
  unfold ret in H5. injection H5 as <- <-.
  bind_inv H as w6 cur H6.
  assert (Hcur :
            if p_nonzero (p inp)
            then exists checkpoint,
                   rng_state ctx = Some checkpoint
                   /\ w6 = mkWorld checkpoint
                             (next_ptr w + (if single then 1 else 3))
                             (trace w ++ [EvSetRng checkpoint])
                   /\ cur = Some (rng w)
            else w6 = mkWorld (rng w) (next_ptr w + (if single then 1 else 3))
                              (trace w)
                 /\ cur = None).
  { destruct (p_nonzero (p inp)).
    - destruct (rng_state ctx) as [checkpoint |]; [| discriminate].
      unfold bindM, get_rng_state, set_rng_state, ret in H6. simpl in H6.
      injection H6 as <- <-. eauto.
    - unfold ret in H6. injection H6 as <- <-. auto. }
  clear H6.
  bind_inv H as w7 g H7. apply liftR_inr in H7. destruct H7 as [-> _].
  bind_inv H as w8 o H8. apply liftR_inr in H8. destruct H8 as [-> _].
  bind_inv H as w9 res H9. destruct res as [[wq wk] wv].
  apply call_bwd_kernel_full in H9. simpl in H9.
  destruct H9 as [kern [Hkern [_ [Hptr9 Htr9]]]].
  bind_inv H as w10 u2 H10.
  bind_inv H as w11 dq_ H11. apply liftR_inr in H11. destruct H11 as [-> Hdq].
  bind_inv H as w12 dk_ H12. apply liftR_inr in H12. destruct H12 as [-> Hdk].
  bind_inv H as w13 dv_ H13. apply liftR_inr in H13. destruct H13 as [-> Hdv].
  apply reshape_view_inv in Hdq, Hdk, Hdv.
  destruct Hdq as [-> _], Hdk as [-> _], Hdv as [-> _].
  unfold ret in H. injection H as <- <-.
  exists batch, mq, mk, nh, hq, hv, single, wq, wk, wv.
  repeat (split; [assumption |]).
  split; [congruence |].
  destruct (p_nonzero (p inp)).
  - destruct Hcur as [checkpoint [Hck [-> ->]]].
    unfold set_rng_state in H10. injection H10 as <- _. simpl in *.
    split.
    { exists checkpoint. repeat split; auto.
      rewrite Htr9, <- !app_assoc. reflexivity. }
    split; [exact Hptr9 |].
    unfold with_shape, with_data. simpl. reflexivity.
  - destruct Hcur as [-> ->].
    unfold ret in H10. injection H10 as <- _. simpl in *.
    split; [exact Htr9 |].
    split; [exact Hptr9 |].
    unfold with_shape, with_data. simpl. reflexivity.
Qed.

End FlashApplyBackward.

Lemma p_nonzero_false_iff (x : Q) : p_nonzero x = false <-> (x == 0)%Q.
Proof.
  unfold p_nonzero. rewrite negb_false_iff. apply Qeq_bool_iff.
Qed.

Section FlashOperatorFacts.

Variable E : Env.

(** X2: a flash forward call that returns gives an output of shape
    [batch, seqlen_q, heads, value dim] with the dtype and device of the
    query, in one freshly allocated storage, and always gives a context,
    whatever [needs_gradient] is, whose [out] is that same output. *)
Theorem flash_forward_output (inp : Inputs) (needs_gradient : bool)
  (w w' : World) (o : Tensor) (c : option Context)
  (B Mq H K Bv Mv Hv Kv : Z) :
  shape (query inp) = [B; Mq; H; K] ->
  shape (value inp) = [Bv; Mv; Hv; Kv] ->
  FwOp.apply E inp needs_gradient w = (w', inr (o, c)) ->
  shape o = [B; Mq; H; Kv]
  /\ dtype o = dtype (query inp)
  /\ device o = device (query inp)
  /\ requires_grad o = false
  /\ data_ptr o = next_ptr w
  /\ next_ptr w' = next_ptr w + 1
  /\ exists ctx, c = Some ctx /\ out ctx = o.
Proof.
  intros Eq Ev Happly. apply FwOp_apply_inv in Happly.
  destruct Happly as [q0 [q1 [q2 [v3 [softmax_lse [written Hinv]]]]]].
  destruct Hinv as [_ [H0 [H1 [H2 [H3 [_ [Hptr [_ [-> ->]]]]]]]]].
  rewrite Eq in H0, H1, H2. rewrite Ev in H3. cbv in H0, H1, H2, H3.
  injection H0 as <-. injection H1 as <-. injection H2 as <-. injection H3 as <-.
  simpl. repeat split; auto. eexists. split; reflexivity.
Qed.

(** X3: without dropout (p = 0) a returning flash forward call leaves no
    generator checkpoint and pins no backward operator in its context, and
    its only logged action is the kernel invocation. *)
Theorem flash_forward_without_dropout (inp : Inputs) (needs_gradient : bool)
  (w w' : World) (o : Tensor) (c : option Context) :
  (p inp == 0)%Q ->
  FwOp.apply E inp needs_gradient w = (w', inr (o, c)) ->
  exists ctx,
    c = Some ctx
    /\ rng_state ctx = None
    /\ op_bw ctx = None
    /\ trace w' = trace w ++ [EvFlashFwdKernel (rng w) (p inp)].
Proof.
  intros Hp Happly. apply p_nonzero_false_iff in Hp.
  apply FwOp_apply_inv in Happly.
  destruct Happly as [q0 [q1 [q2 [v3 [softmax_lse [written Hinv]]]]]].
  destruct Hinv as [_ [_ [_ [_ [_ [_ [_ [Htr [_ ->]]]]]]]]].
  rewrite Hp. eexists. split; [reflexivity |]. simpl. auto.
Qed.


(** X5: the gradients returned by the flash backward operator have the
    shapes of query, key and value as they were passed in, and do not
    require gradients. *)
Theorem flash_backward_gradient_shapes (ctx : Context) (inp : Inputs)
  (grad : Tensor) (w w' : World) (grads : Gradients) :
  BwOp.apply E ctx inp grad w = (w', inr grads) ->
  shape (dq grads) = shape (query inp)
  /\ shape (dk grads) = shape (key inp)
  /\ shape (dv grads) = shape (value inp)
  /\ requires_grad (dq grads) = false
  /\ requires_grad (dk grads) = false
  /\ requires_grad (dv grads) = false.
Proof.
  intros Happly. apply BwOp_apply_inv in Happly.
  destruct Happly as [batch [mq [mk [nh [hq [hv [single [wq [wk [wv Hinv]]]]]]]]]].
  destruct Hinv as [_ [_ [_ [_ [_ [_ [_ [_ [_ [_ [_ ->]]]]]]]]]]].
  simpl. auto 6.
Qed.

(** X6: the flash backward operator looks at the operands as flattened by
    [_convert_input_format].  When the flattened query, key and value lie in
    one storage and have equal lengths and equal head dimensions (a packed
    QKV projection whose flattening is a view), the three gradients are
    views of a single new storage, allocated once; in every other case, in
    particular when a flattening had to copy, they live in three distinct
    new storages. *)
Theorem flash_backward_gradient_storage (ctx : Context) (inp : Inputs)
  (grad : Tensor) (w w' : World) (grads : Gradients)
  (B Mq H K Bk Mk Hk Kk Bv Mv Hv Kv : Z) :
  shape (query inp) = [B; Mq; H; K] ->
  shape (key inp) = [Bk; Mk; Hk; Kk] ->
  shape (value inp) = [Bv; Mv; Hv; Kv] ->
  BwOp.apply E ctx inp grad w = (w', inr grads) ->
  let flat_q := reshaped E (query inp) [B * Mq; H; K] in
  let flat_k := reshaped E (key inp) [B * Mk; H; K] in
  let flat_v := reshaped E (value inp) [B * Mk; H; Kv] in
  let packed :=
    B * Mq = B * Mk /\ K = Kv
    /\ data_ptr flat_q = data_ptr flat_k
    /\ data_ptr flat_q = data_ptr flat_v in
  (packed ->
   data_ptr (dq grads) = next_ptr w
   /\ data_ptr (dk grads) = next_ptr w
   /\ data_ptr (dv grads) = next_ptr w
   /\ next_ptr w' = next_ptr w + 1)
  /\ (~ packed ->
      data_ptr (dq grads) = next_ptr w
      /\ data_ptr (dk grads) = next_ptr w + 1
      /\ data_ptr (dv grads) = next_ptr w + 2
      /\ next_ptr w' = next_ptr w + 3).
Proof.
  intros Eq Ek Ev Happly flat_q flat_k flat_v packed.
  apply BwOp_apply_inv in Happly.
  destruct Happly as
    [batch [mq [mk [nh [hq [hv [single [wq [wk [wv Hinv]]]]]]]]]].
  destruct Hinv as [H0 [H1 [H2 [Hn [H3 [H4 [Hs [_ [_ [_ [Hptr ->]]]]]]]]]]].
  rewrite Eq in H0, H1, Hn, H3. rewrite Ek in H2. rewrite Ev in H4.
  cbv in H0, H1, H2, Hn, H3, H4.
  injection H0 as <-. injection H1 as <-. injection H2 as <-.
  injection Hn as <-. injection H3 as <-. injection H4 as <-.
  assert (Hdec : single = true <-> packed).
  { unfold packed, flat_q, flat_k, flat_v, reshaped. simpl data_ptr. rewrite Hs.
    destruct (B * Mq =? B * Mk) eqn:H0; simpl.
    - apply Z.eqb_eq in H0.
      rewrite !andb_true_iff, !Z.eqb_eq. tauto.
    - apply Z.eqb_neq in H0. split; [discriminate | tauto]. }
  simpl. rewrite Hptr. split.
  - intros Hp. apply Hdec in Hp. rewrite Hp. rewrite !Z.add_0_r. auto.
  - intros Hnp. destruct single.
    + exfalso. apply Hnp, Hdec. reflexivity.
    + auto.
Qed.

(** X7: without dropout (p = 0) the flash backward operator neither saves
    nor installs a generator state: the kernel runs under the ambient state
    and its invocation is the only logged action; no checkpoint is needed in
    the context. *)
Theorem flash_backward_without_dropout (ctx : Context) (inp : Inputs)
  (grad : Tensor) (w w' : World) (grads : Gradients) :
  (p inp == 0)%Q ->
  BwOp.apply E ctx inp grad w = (w', inr grads) ->
  trace w' = trace w ++ [EvFlashBwdKernel (rng w) (p inp)].
Proof.
  intros Hp Happly. apply p_nonzero_false_iff in Hp.
  apply BwOp_apply_inv in Happly.
  destruct Happly as [batch [mq [mk [nh [hq [hv [single [wq [wk [wv Hinv]]]]]]]]]].
  destruct Hinv as [_ [_ [_ [_ [_ [_ [_ [_ [_ [Hrng _]]]]]]]]]].
  rewrite Hp in Hrng. exact Hrng.
Qed.

End FlashOperatorFacts.

(** ** What happens before the kernel is reached *)

Lemma quiet_ret {A} (a : A) : quiet (ret a).
Proof. intros w w' r H. unfold ret in H. inversion H. auto. Qed.

Lemma quiet_raise {A} (e : exn) : quiet (@raise A e).
Proof. intros w w' r H. unfold raise in H. inversion H. auto. Qed.

Lemma quiet_liftR {A} (x : Res A) : quiet (liftR x).
Proof. intros w w' r H. unfold liftR in H. inversion H. auto. Qed.

Lemma quiet_torch_empty (s : list Z) (dt : DType) (dev : Device) :
  quiet (torch_empty s dt dev).
Proof. intros w w' r H. unfold torch_empty in H. inversion H. auto. Qed.

Lemma quiet_get_rng_state : quiet get_rng_state.
Proof. intros w w' r H. unfold get_rng_state in H. inversion H. auto. Qed.

Lemma quiet_py_assert (c : bool) (msg : string) : quiet (py_assert c msg).
Proof. unfold py_assert. destruct c; [apply quiet_ret | apply quiet_raise]. Qed.

Lemma quiet_bind {A B} (m : M A) (k : A -> M B) :
  quiet m -> (forall a, quiet (k a)) -> quiet (bindM m k).
Proof.
  intros Hm Hk w w' r H. unfold bindM in H.
  destruct (m w) as [w1 [e | a]] eqn:Hmw.
  - inversion H; subst. eapply Hm; eauto.
  - destruct (Hm _ _ _ Hmw) as [Hr Ht].
    destruct (Hk a _ _ _ H) as [Hr' Ht']. split; congruence.
Qed.

Lemma quiet_bind_liftR {A B} (x : Res A) (k : A -> M B) :
  (forall a, x = inr a -> quiet (k a)) -> quiet (bindM (liftR x) k).
Proof.
  intros Hk w w' r H. unfold bindM, liftR in H.
  destruct x as [e | a].
  - inversion H. auto.
  - eapply Hk; eauto.
Qed.

Lemma refuses_raise {A} (e : exn) : refuses (@raise A e).
Proof. intros w w' r H. unfold raise in H. inversion H. eauto. Qed.

Lemma refuses_bind {A B} (m : M A) (k : A -> M B) :
  (forall a, refuses (k a)) -> refuses (bindM m k).
Proof.
  intros Hk w w' r H. unfold bindM in H.
  destruct (m w) as [w1 [e | a]].
  - inversion H. eauto.
  - eapply Hk; eauto.
Qed.

Lemma refuses_bind_liftR {A B} (x : Res A) (k : A -> M B) :
  (forall a, x = inr a -> refuses (k a)) -> refuses (bindM (liftR x) k).
Proof.
  intros Hk w w' r H. unfold bindM, liftR in H.
  destruct x as [e | a].
  - inversion H. eauto.
  - eapply Hk; eauto.
Qed.

Lemma refuses_bind_raise {A B} (e : exn) (k : A -> M B) :
  refuses (bindM (raise e) k).
Proof. intros w w' r H. unfold bindM, raise in H. inversion H. eauto. Qed.

Lemma quiet_bind_raise {A B} (e : exn) (k : A -> M B) :
  quiet (bindM (raise e) k).
Proof. intros w w' r H. unfold bindM, raise in H. inversion H. auto. Qed.

Section BeforeTheKernel.

Variable E : Env.

Lemma quiet_allocate_gradients (single_qkv : bool) (inp : Inputs) :
  quiet (if single_qkv then
           s <- liftR (q0 <~ py_index (shape (query inp)) 0 ;;
                       q1 <~ py_index (shape (query inp)) 1 ;;
                       q2 <~ py_index (shape (query inp)) 2 ;;
                       ok [q0; 3; q1; q2])%res ;;
           chunk <- torch_empty s (dtype (query inp)) (inp_device inp) ;;
           ret (mkGradients (BwOp.select1 chunk) (BwOp.select1 chunk)
                            (BwOp.select1 chunk))
         else
           dq_ <- torch_empty_like (query inp) ;;
           dk_ <- torch_empty_like (key inp) ;;
           dv_ <- torch_empty_like (value inp) ;;
           ret (mkGradients dq_ dk_ dv_))%M.
Proof.
  destruct single_qkv.
  - apply quiet_bind; [apply quiet_liftR | intros s].
    apply quiet_bind; [apply quiet_torch_empty | intros chunk]. apply quiet_ret.
  - unfold torch_empty_like.
    apply quiet_bind; [apply quiet_torch_empty | intros a].
    apply quiet_bind; [apply quiet_torch_empty | intros b].
    apply quiet_bind; [apply quiet_torch_empty | intros c]. apply quiet_ret.
Qed.

(** X8: the flash backward operator refuses a gradient whose dtype is not
    half or bfloat16, and a dropout call (p != 0) whose context has no
    generator checkpoint: the call ends in an exception, the kernel is not
    run, and the random generator is left as it was. *)
Theorem flash_backward_refuses_before_kernel (ctx : Context) (inp : Inputs)
  (grad : Tensor) (w w' : World) (r : Res Gradients) :
  existsb (DType_eqb (dtype grad)) (SUPPORTED_DTYPES BwOp.descriptor) = false
  \/ (p_nonzero (p inp) = true /\ rng_state ctx = None) ->
  BwOp.apply E ctx inp grad w = (w', r) ->
  (exists e, r = inl e) /\ rng w' = rng w /\ trace w' = trace w.
Proof.
  intros Hbad.
  assert (Hqr : quiet (BwOp.apply E ctx inp grad)
                /\ refuses (BwOp.apply E ctx inp grad)).
  { unfold BwOp.apply. split.
    - apply quiet_bind_liftR. intros conv Hconv.
      destruct conv as [[[[[inp1 sc] cu_q] mq] cu_k] mk].
      apply _convert_input_format_fields in Hconv. destruct Hconv as [Hp _].
      apply quiet_bind; [apply quiet_liftR | intros kshape].
      apply quiet_bind; [apply quiet_liftR | intros single].
      apply quiet_bind; [apply quiet_allocate_gradients | intros g0].
      unfold py_assert.
      destruct Hbad as [Hdt | [Hpnz Hck]].
      + change (SUPPORTED_DTYPES BwOp.descriptor) with [half; bfloat16] in Hdt.
        simpl in Hdt. simpl. rewrite Hdt. apply quiet_bind_raise.
      + match goal with
        | |- context [if ?c then ret tt else _] => destruct c
        end; [| apply quiet_bind_raise].
        apply quiet_bind; [apply quiet_ret | intros _].
        rewrite Hp, Hpnz, Hck. apply quiet_bind_raise.
    - apply refuses_bind_liftR. intros conv Hconv.
      destruct conv as [[[[[inp1 sc] cu_q] mq] cu_k] mk].
      apply _convert_input_format_fields in Hconv. destruct Hconv as [Hp _].
      apply refuses_bind; intros kshape.
      apply refuses_bind; intros single.
      apply refuses_bind; intros g0.
      unfold py_assert.
      destruct Hbad as [Hdt | [Hpnz Hck]].
      + change (SUPPORTED_DTYPES BwOp.descriptor) with [half; bfloat16] in Hdt.
        simpl in Hdt. simpl. rewrite Hdt. apply refuses_bind_raise.
      + match goal with
        | |- context [if ?c then ret tt else _] => destruct c
        end; [| apply refuses_bind_raise].
        apply refuses_bind; intros _.
        rewrite Hp, Hpnz, Hck. apply refuses_bind_raise. }
  destruct Hqr as [Hq Hr]. intros Happly.
  split; [eapply Hr; eauto | eapply Hq; eauto].
Qed.

(** X9: when the native extension failed to import
    ([_C_flashattention_fwd] is [None]), both flash operators report every
    input as unsupported, without raising, whatever the input is; and a
    forward call forced on the flash operator ends in an exception without
    having touched the generator or the log. *)
Theorem flash_unavailable_extension (d : Inputs) :
  _C_flashattention_fwd E = None ->
  FwOp.supports E d = inr false
  /\ BwOp.supports E d = inr false
  /\ forall (needs_gradient : bool) (w w' : World)
            (r : Res (Tensor * option Context)),
       FwOp.apply E d needs_gradient w = (w', r) ->
       (exists e, r = inl e) /\ rng w' = rng w /\ trace w' = trace w.
Proof.
  intros Hnone.
  assert (Hfw : FwOp.supports E d = inr false).
  { unfold FwOp.supports, FwOp.OPERATOR. rewrite Hnone. reflexivity. }
  split; [exact Hfw | split].
  - unfold BwOp.supports. rewrite Hfw. reflexivity.
  - intros ng w w' r Happly. split.
    + destruct r as [e | [o c]]; [eauto |].
      apply FwOp_apply_inv in Happly.
      destruct Happly as [q0 [q1 [q2 [v3 [l [wr Hinv]]]]]].
      exfalso. destruct Hinv as [_ [_ [_ [_ [_ [Hk _]]]]]]. contradiction.
    + revert w w' r Happly. change (quiet (FwOp.apply E d ng)).
      unfold FwOp.apply.
      destruct (negb (bias_is_None (attn_bias d)) && _); [apply quiet_raise |].
      apply quiet_bind; [apply quiet_liftR | intros out_shape].
      apply quiet_bind; [apply quiet_liftR | intros conv].
      destruct conv as [[[[[inp1 sc] cu_q] mq] cu_k] mk].
      apply quiet_bind; [apply quiet_liftR | intros e_shape].
      apply quiet_bind; [apply quiet_torch_empty | intros out_].
      apply quiet_bind.
      { destruct (p_nonzero (p inp1)); [| apply quiet_ret].
        apply quiet_bind; [apply quiet_get_rng_state | intros s].
        apply quiet_ret. }
      intros saved. unfold call_fwd_kernel. rewrite Hnone.
      apply quiet_bind_raise.
Qed.

End BeforeTheKernel.

(** ** Support predicates of the flash operators *)

Section FlashSupportFacts.

Variable E : Env.

Lemma FwOp_supports_inv (d : Inputs) :
  FwOp.supports E d = inr true ->
  _C_flashattention_fwd E <> None
  /\ base_supports FwOp.descriptor d = inr true
  /\ exists k_,
       py_index (shape (query d)) (-1) = inr k_
       /\ (0 <? k_ mod 8) = false
       /\ pair_geb (get_device_capability E (inp_device d)) (7, 5) = true.
Proof.
  unfold FwOp.supports, FwOp.OPERATOR.
  destruct (_C_flashattention_fwd E) as [kern |]; [| discriminate].
  intros H. split; [discriminate |].
  bindR_inv H as b Hb. destruct b; simpl in H; [| discriminate].
  split; [exact Hb |].
  bindR_inv H as k_ Hk. exists k_. split; [exact Hk |].
  destruct (0 <? k_ mod 8); [discriminate |].
  injection H as H. auto.
Qed.

(** X10: the flash forward operator accepts an input only if the native
    kernel is loaded, the head dimension of the query is a multiple of 8,
    and the device has compute capability at least (7, 5). *)
Theorem flash_fw_supports_requirements (d : Inputs) :
  FwOp.supports E d = inr true ->
  _C_flashattention_fwd E <> None
  /\ exists k_ major minor,
       py_index (shape (query d)) (-1) = inr k_
       /\ k_ mod 8 = 0
       /\ get_device_capability E (inp_device d) = (major, minor)
       /\ (7 < major \/ (major = 7 /\ 5 <= minor)).
Proof.
  intros H. apply FwOp_supports_inv in H.
  destruct H as [Hk [_ [k_ [Hidx [Hmod Hcap]]]]].
  split; [exact Hk |].
  destruct (get_device_capability E (inp_device d)) as [major minor] eqn:Hdev.
  exists k_, major, minor. split; [exact Hidx |].
  split.
  - apply Z.ltb_ge in Hmod.
    pose proof (Z.mod_pos_bound k_ 8 ltac:(lia)). lia.
  - split; [reflexivity |].
    unfold pair_geb in Hcap. simpl in Hcap.
    apply orb_true_iff in Hcap. destruct Hcap as [Hc | Hc].
    + apply Z.ltb_lt in Hc. auto.
    + apply andb_true_iff in Hc. destruct Hc as [Hmaj Hmin].
      apply Z.eqb_eq in Hmaj. apply Z.leb_le in Hmin. auto.
Qed.

(** X11: on an input that the flash forward operator accepts, the flash
    backward operator accepts exactly when the larger of the key and query
    head dimensions is at most 64 or the device capability is (8, 0); on an
    input the forward operator refuses, it refuses. *)
Theorem flash_bw_supports_value (d : Inputs) (b : bool) (kk qk : Z) :
  FwOp.supports E d = inr b ->
  py_index (shape (key d)) (-1) = inr kk ->
  py_index (shape (query d)) (-1) = inr qk ->
  BwOp.supports E d
  = inr (b && ((Z.max kk qk <=? 64)
               || ((fst (get_device_capability E (inp_device d)) =? 8)
                   && (snd (get_device_capability E (inp_device d)) =? 0)))).
Proof.
  intros Hfw Hk Hq. unfold BwOp.supports. rewrite Hfw. simpl.
  destruct b; simpl; [| reflexivity].
  rewrite Hk, Hq. simpl.
  rewrite (Z.leb_antisym 64 (Z.max kk qk)).
  rewrite Z.ltb_antisym.
  destruct (Z.max kk qk <=? 64); simpl.
  - reflexivity.
  - destruct ((fst (get_device_capability E (inp_device d)) =? 8)
              && (snd (get_device_capability E (inp_device d)) =? 0));
      reflexivity.
Qed.

End FlashSupportFacts.

(** ** Forward and backward through the bridge *)

Lemma validate_backward_shapes_fields (grad : Tensor) (ctx : Context)
  (inp inp2 : Inputs) :
  validate_backward_shapes grad ctx inp = inr inp2 ->
  p inp2 = p inp /\ attn_bias inp2 = attn_bias inp /\ scale inp2 = scale inp.
Proof.
  unfold validate_backward_shapes.
  destruct (negb (ndim grad =? ndim (query inp))
            || negb (ndim grad =? ndim (out ctx))); [discriminate |].
  intros H. bindR_inv H as n Hn. destruct n as [inp1 os].
  bindR_inv H as bad Hbad. destruct bad; [discriminate |].
  injection H as <-.
  apply normalize_bmhk_fields in Hn. tauto.
Qed.

Lemma resolve_op_bw_pinned (given : option BwOpId) (pin : BwOpId)
  (recorded : option BwOpId) :
  _fMHA.resolve_op_bw given (Some pin) = inr recorded -> recorded = Some pin.
Proof.
  unfold _fMHA.resolve_op_bw. destruct given as [g |].
  - destruct (negb (BwOpId_eqb g pin)); [discriminate |].
    intros H. injection H as <-. reflexivity.
  - intros H. injection H as <-. reflexivity.
Qed.

Section BridgeComposition.

Variable E : Env.

Lemma forward_requires_grad_inv (inp inp' : Inputs) (op : option FwOpId)
  (w w1 : World) (o : Tensor) (c : Context) :
  _memory_efficient_attention_forward_requires_grad E inp op w
    = (w1, inr (inp', (o, c))) ->
  exists os chosen o0,
    normalize_bmhk inp = inr (inp', os)
    /\ match op with None => _dispatch_fw E inp' | Some x => inr x end
       = inr chosen
    /\ fw_apply E chosen inp' true w = (w1, inr (o0, Some c))
    /\ reshape E o0 os = inr o.
Proof.
  unfold _memory_efficient_attention_forward_requires_grad. intros H.
  bind_inv H as w2 n H2. apply liftR_inr in H2. destruct H2 as [-> Hn].
  destruct n as [inp1 os].
  bind_inv H as w3 chosen H3.
  assert (Hop : w3 = w
                /\ match op with None => _dispatch_fw E inp1 | Some x => inr x end
                   = inr chosen).
  { destruct op as [x |].
    - unfold ret in H3. injection H3 as <- <-. auto.
    - apply liftR_inr in H3. exact H3. }
  destruct Hop as [-> Hop]. clear H3.
  bind_inv H as w4 r H4. destruct r as [o0 c0]. simpl in H.
  destruct c0 as [c1 |]; [| discriminate].
  bind_inv H as w5 o1 H5. apply liftR_inr in H5. destruct H5 as [-> Hre].
  unfold ret in H. injection H as <- <- <- <-.
  exists os, chosen, o0. auto.
Qed.

Lemma backward_with_flash_inv (ctx : Context) (inp : Inputs) (grad : Tensor)
  (w w' : World) (grads : Gradients) :
  _memory_efficient_attention_backward E ctx inp grad (Some flash_BwOp) w
    = (w', inr grads) ->
  exists inp2 grad2 out2,
    validate_backward_shapes grad ctx inp = inr inp2
    /\ bmk2bmhk E grad 1 = inr grad2
    /\ bmk2bmhk E (out ctx) 1 = inr out2
    /\ BwOp.apply E (mkContext out2 (lse ctx) (op_bw ctx) (rng_state ctx))
         inp2 grad2
         (mkWorld (rng w) (next_ptr w)
                  (trace w ++ [EvBwApply flash_BwOp (p inp2)]))
       = (w', inr grads).
Proof.
  unfold _memory_efficient_attention_backward. intros H.
  bind_inv H as w1 inp2 H1. apply liftR_inr in H1. destruct H1 as [-> Hv].
  bind_inv H as w2 grad2 H2. apply liftR_inr in H2. destruct H2 as [-> Hg].
  bind_inv H as w3 out2 H3. apply liftR_inr in H3. destruct H3 as [-> Ho].
  bind_inv H as w4 chosen H4. unfold ret in H4. injection H4 as <- <-.
  unfold bw_apply, bindM, log in H. simpl in H.
  exists inp2, grad2, out2. auto.
Qed.

(** X12: dropout replay through the bridge.  When a differentiable call with
    p > 0 runs its forward on the flash operator and its backward later
    returns, the backward ran on the flash backward operator (the caller's
    own backward operator, if any, is then that same one: the forward
    refuses any other), its kernel ran under the very generator state the
    forward kernel ran under, and the generator state that was ambient when
    backward started is back in place afterwards. *)
Theorem bridge_replays_dropout (given_bw : option BwOpId) (args : list PyVal)
  (inp : Inputs) (w w1 : World) (out_ : Tensor) (fctx : FunctionCtx)
  (grad : Tensor) (w2 w3 : World) (tup : list (option Tensor)) :
  Inputs_of_args args = inr inp ->
  (0 < p inp)%Q ->
  _fMHA.apply E (Some (Some flash_FwOp, given_bw)) args w
    = (w1, inr (out_, fctx)) ->
  _fMHA.backward E fctx grad w2 = (w3, inr tup) ->
  trace w1 = trace w ++ [EvAutogradApply;
                         EvFwApply flash_FwOp true (p inp);
                         EvFlashFwdKernel (rng w) (p inp)]
  /\ trace w3 = trace w2 ++ [EvBwApply flash_BwOp (p inp);
                             EvSetRng (rng w);
                             EvFlashBwdKernel (rng w) (p inp);
                             EvSetRng (rng w2)]
  /\ rng w3 = rng w2.
Proof.
  intros Hargs Hpos Hfw Hbw. apply p_nonzero_of_pos in Hpos.
  (* forward *)
  unfold _fMHA.apply, bindM at 1, log in Hfw.
  apply forward_inv in Hfw.
  destruct Hfw as [inp0 [inp' [op_ctx [recorded [Hargs0 [Hrun [Hres ->]]]]]]].
  rewrite Hargs in Hargs0. injection Hargs0 as <-.
  simpl fw_half in Hrun. simpl bw_half in Hres.
  apply forward_requires_grad_inv in Hrun.
  destruct Hrun as [os [chosen [o0 [Hnorm [Hop [Happly _]]]]]].
  injection Hop as <-.
  apply normalize_bmhk_fields in Hnorm. destruct Hnorm as [_ [Hp _]].
  unfold fw_apply, bindM at 1, log in Happly. simpl in Happly.
  apply FwOp_apply_inv in Happly.
  destruct Happly as [q0 [q1 [q2 [v3 [softmax_lse [written Hinv]]]]]].
  destruct Hinv as [_ [_ [_ [_ [_ [_ [_ [Htr1 [_ Hctx]]]]]]]]].
  simpl in Htr1. rewrite Hp in *. rewrite Hpos in Hctx.
  injection Hctx as ->. simpl in Hres.
  apply resolve_op_bw_pinned in Hres. subst recorded.
  split.
  { rewrite Htr1, <- !app_assoc. reflexivity. }
  (* backward *)
  unfold _fMHA.backward in Hbw.
  bind_inv Hbw as w4 chk H4. apply liftR_inr in H4. destruct H4 as [-> _].
  bind_inv Hbw as w5 u H5.
  assert (Hw5 : w5 = w2).
  { unfold py_assert in H5. destruct chk; inversion H5; reflexivity. }
  subst w5. clear H5.
  bind_inv Hbw as w6 grads H6.
  unfold ret in Hbw. injection Hbw as <- _.
  unfold stored_ctx in H6. simpl in H6.
  apply backward_with_flash_inv in H6.
  destruct H6 as [inp2 [grad2 [out2 [Hval [_ [_ Hbwd]]]]]].
  apply validate_backward_shapes_fields in Hval. destruct Hval as [Hp2 _].
  unfold _fMHA.saved_inputs in Hp2. simpl in Hp2. rewrite Hp in Hp2.
  apply BwOp_apply_inv in Hbwd.
  destruct Hbwd as [batch [mq [mk [nh [hq [hv [single [wq [wk [wv Hinv]]]]]]]]]].
  destruct Hinv as [_ [_ [_ [_ [_ [_ [_ [_ [_ [Hrng _]]]]]]]]]].
  rewrite Hp2 in *. rewrite Hpos in Hrng.
  destruct Hrng as [checkpoint [Hck [Hr Ht]]].
  simpl in Hck, Hr, Ht. injection Hck as <-.
  split; [| exact Hr].
  rewrite Ht, <- !app_assoc. reflexivity.
Qed.

(** X13: for a context saved without dropout and without generator
    checkpoint, once the assertion on requested gradients passes, the
    backward of the bridge is the manual backward entry point applied to the
    saved tensors with the recorded operator, its three gradients placed in
    the positions of query, key and value. *)
Theorem bridge_backward_is_manual_backward (fctx : FunctionCtx) (grad : Tensor)
  (w : World) :
  p_nonzero (ctx_p fctx) = false ->
  saved_rng_state (saved_tensors fctx) = None ->
  all_not_requested (needs_input_grad fctx) (_fMHA.checked_positions fctx)
    = inr true ->
  _fMHA.backward E fctx grad w
  = bindM (memory_efficient_attention_backward E grad
             (saved_out (saved_tensors fctx)) (saved_lse (saved_tensors fctx))
             (saved_query (saved_tensors fctx)) (saved_key (saved_tensors fctx))
             (saved_value (saved_tensors fctx))
             (_fMHA.deserialize_bias (attn_bias_ctx fctx)
                (saved_attn_bias_tensor (saved_tensors fctx)))
             (ctx_p fctx) (ctx_scale fctx) (ctx_op_bw fctx))
          (fun g => match g with
                    | (dq_, dk_, dv_) =>
                        ret ([None; Some dq_; Some dk_; Some dv_]
                             ++ repeat None (n_args fctx - 3))
                    end) w.
Proof.
  intros Hp Hrng Hassert.
  unfold _fMHA.backward, memory_efficient_attention_backward.
  rewrite Hp. unfold bindM at 1. unfold liftR at 1. rewrite Hassert.
  unfold bindM at 1. unfold py_assert, ret at 1.
  unfold _fMHA.saved_context, _fMHA.saved_inputs. rewrite Hrng.
  unfold bindM.
  destruct (_memory_efficient_attention_backward E _ _ grad (ctx_op_bw fctx) w)
    as [w' [e | g]]; reflexivity.
Qed.

(** X14: what [forward] hands over to [backward].  The operands re-created
    at backward time are the normalised operands of the call with query,
    key and value detached (none requires a gradient), the same bias, [p]
    and [scale]; the context records the number of positional arguments; and
    the output returned to the caller has the shape that normalisation
    reported. *)
Theorem forward_hands_over_operands (flags : list bool)
  (op : option AttentionOp) (args : list PyVal) (w w' : World)
  (out_ : Tensor) (fctx : FunctionCtx) :
  _fMHA.forward E flags op args w = (w', inr (out_, fctx)) ->
  exists inp inp' os,
    Inputs_of_args args = inr inp
    /\ normalize_bmhk inp = inr (inp', os)
    /\ _fMHA.saved_inputs fctx
       = mkInputs (detach (query inp')) (detach (key inp')) (detach (value inp'))
                  (attn_bias inp) (p inp) (scale inp)
    /\ requires_grad (query (_fMHA.saved_inputs fctx)) = false
    /\ requires_grad (key (_fMHA.saved_inputs fctx)) = false
    /\ requires_grad (value (_fMHA.saved_inputs fctx)) = false
    /\ n_args fctx = List.length args
    /\ needs_input_grad fctx = flags
    /\ shape out_ = os.
Proof.
  intros H. apply forward_inv in H.
  destruct H as [inp [inp' [op_ctx [recorded [Hargs [Hrun [_ ->]]]]]]].
  apply forward_requires_grad_inv in Hrun.
  destruct Hrun as [os [chosen [o0 [Hnorm [_ [_ Hre]]]]]].
  exists inp, inp', os.
  split; [exact Hargs | split; [exact Hnorm |]].
  apply reshape_inv in Hre. destruct Hre as [-> _].
  apply normalize_bmhk_fields in Hnorm. destruct Hnorm as [Hb [Hp Hs]].
  unfold _fMHA.saved_inputs, stored_ctx. simpl.
  rewrite Hb, Hp, Hs.
  repeat split; auto.
  destruct (attn_bias inp) as [| t | m]; reflexivity.
Qed.

End BridgeComposition.

(** ** The further properties at the sample runs *)

Lemma _convert_input_format_layout_witness :
  [0; 8; 16] = map (fun i => Z.of_nat i * 8) (seq 0 (Z.to_nat (2 + 1)))
  /\ shape (query Scenario.flat_dropout) = [2 * 8; 4; 16]
  /\ List.length [0; 8; 16] = Z.to_nat (2 + 1).
Proof.
  split; [| split].
  - apply (_convert_input_format_layout Sample.a100 Sample.inp_dropout
             Scenario.flat_dropout (InvSqrt 16) [0; 8; 16] [0; 8; 16] 8 8
             2 8 4 16 2 8 4 16 2 8 4 16 eq_refl eq_refl eq_refl eq_refl).
    reflexivity.
  - apply (_convert_input_format_layout Sample.a100 Sample.inp_dropout
             Scenario.flat_dropout (InvSqrt 16) [0; 8; 16] [0; 8; 16] 8 8
             2 8 4 16 2 8 4 16 2 8 4 16 eq_refl eq_refl eq_refl eq_refl).
  - apply (_convert_input_format_layout Sample.a100 Sample.inp_dropout
             Scenario.flat_dropout (InvSqrt 16) [0; 8; 16] [0; 8; 16] 8 8
             2 8 4 16 2 8 4 16 2 8 4 16 eq_refl eq_refl eq_refl eq_refl).
Defined.

Lemma flash_forward_output_witness :
  shape Sample.out_fw = [2; 8; 4; 16]
  /\ data_ptr Sample.out_fw = next_ptr Sample.w0.
Proof.
  split;
    apply (flash_forward_output Sample.a100 Scenario.inp_plain false Sample.w0
             Scenario.w_fw_plain Sample.out_fw (Some Scenario.ctx_plain)
             2 8 4 16 2 8 4 16 eq_refl eq_refl eq_refl).
Defined.

Lemma flash_forward_without_dropout_witness :
  exists ctx,
    Some Scenario.ctx_plain = Some ctx
    /\ rng_state ctx = None
    /\ op_bw ctx = None
    /\ trace Scenario.w_fw_plain
       = trace Sample.w0
         ++ [EvFlashFwdKernel (rng Sample.w0) (p Scenario.inp_plain)].
Proof.
  exact (flash_forward_without_dropout Sample.a100 Scenario.inp_plain false
           Sample.w0 Scenario.w_fw_plain Sample.out_fw (Some Scenario.ctx_plain)
           (Qeq_refl 0) eq_refl).
Defined.


Lemma flash_backward_gradient_shapes_witness :
  shape (dq Sample.grads_ambient) = shape (query Scenario.inp_plain)
  /\ requires_grad (dv Sample.grads_ambient) = false.
Proof.
  split;
    apply (flash_backward_gradient_shapes Sample.a100 Scenario.ctx_plain
             Scenario.inp_plain Sample.grad Sample.w_ambient Scenario.w_bw_plain
             Sample.grads_ambient eq_refl).
Defined.

Lemma flash_backward_gradient_storage_witness :
  (data_ptr (dq Scenario.grads_packed) = next_ptr Sample.w_ambient
   /\ data_ptr (dk Scenario.grads_packed) = next_ptr Sample.w_ambient
   /\ data_ptr (dv Scenario.grads_packed) = next_ptr Sample.w_ambient
   /\ next_ptr Scenario.w_bw_packed = next_ptr Sample.w_ambient + 1)
  /\ (data_ptr (dq Sample.grads_ambient) = next_ptr Sample.w_ambient
      /\ data_ptr (dk Sample.grads_ambient) = next_ptr Sample.w_ambient + 1
      /\ data_ptr (dv Sample.grads_ambient) = next_ptr Sample.w_ambient + 2
      /\ next_ptr Scenario.w_bw_plain = next_ptr Sample.w_ambient + 3).
Proof.
  split.
  - apply (proj1 (flash_backward_gradient_storage Sample.a100 Scenario.ctx_plain
                    Scenario.inp_packed Sample.grad Sample.w_ambient
                    Scenario.w_bw_packed Scenario.grads_packed
                    2 8 4 16 2 8 4 16 2 8 4 16 eq_refl eq_refl eq_refl eq_refl)).
    repeat split; reflexivity.
  - apply (proj2 (flash_backward_gradient_storage Sample.a100 Scenario.ctx_plain
                    Scenario.inp_plain Sample.grad Sample.w_ambient
                    Scenario.w_bw_plain Sample.grads_ambient
                    2 8 4 16 2 8 4 16 2 8 4 16 eq_refl eq_refl eq_refl eq_refl)).
    intros [_ [_ [Hptr _]]]. discriminate Hptr.
Defined.

Lemma flash_backward_without_dropout_witness :
  trace Scenario.w_bw_plain
  = trace Sample.w_ambient
    ++ [EvFlashBwdKernel (rng Sample.w_ambient) (p Scenario.inp_plain)].
Proof.
  exact (flash_backward_without_dropout Sample.a100 Scenario.ctx_plain
           Scenario.inp_plain Sample.grad Sample.w_ambient Scenario.w_bw_plain
           Sample.grads_ambient (Qeq_refl 0) eq_refl).
Defined.

Lemma flash_backward_refuses_before_kernel_witness :
  (exists e, inl (AssertionError "grad.dtype in cls.SUPPORTED_DTYPES")
             = @inl exn Gradients e)
  /\ rng (mkWorld 7 203 []) = rng Sample.w_ambient
  /\ trace (mkWorld 7 203 []) = trace Sample.w_ambient.
Proof.
  exact (flash_backward_refuses_before_kernel Sample.a100 Scenario.ctx_plain
           Scenario.inp_plain Scenario.grad32 Sample.w_ambient
           (mkWorld 7 203 [])
           (inl (AssertionError "grad.dtype in cls.SUPPORTED_DTYPES"))
           (or_introl eq_refl) eq_refl).
Defined.

Lemma flash_unavailable_extension_witness :
  FwOp.supports Scenario.no_extension Scenario.inp_plain = inr false
  /\ BwOp.supports Scenario.no_extension Scenario.inp_plain = inr false.
Proof.
  split;
    apply (flash_unavailable_extension Scenario.no_extension Scenario.inp_plain
             eq_refl).
Defined.

Lemma flash_fw_supports_requirements_witness :
  _C_flashattention_fwd Sample.t4 <> None
  /\ exists k_ major minor,
       py_index (shape (query Scenario.inp128)) (-1) = inr k_
       /\ k_ mod 8 = 0
       /\ get_device_capability Sample.t4 (inp_device Scenario.inp128)
          = (major, minor)
       /\ (7 < major \/ (major = 7 /\ 5 <= minor)).
Proof.
  exact (flash_fw_supports_requirements Sample.t4 Scenario.inp128 eq_refl).
Defined.

Lemma flash_bw_supports_value_witness :
  BwOp.supports Sample.t4 Scenario.inp128 = inr false
  /\ BwOp.supports Sample.a100 Scenario.inp128 = inr true.
Proof.
  split.
  - exact (flash_bw_supports_value Sample.t4 Scenario.inp128 true 128 128
             eq_refl eq_refl eq_refl).
  - exact (flash_bw_supports_value Sample.a100 Scenario.inp128 true 128 128
             eq_refl eq_refl eq_refl).
Defined.

Lemma bridge_replays_dropout_witness :
  trace Sample.w_apply
  = trace Sample.w0 ++ [EvAutogradApply;
                        EvFwApply flash_FwOp true (p Sample.inp_dropout);
                        EvFlashFwdKernel (rng Sample.w0) (p Sample.inp_dropout)]
  /\ trace Scenario.w_replay
     = trace Sample.w_ambient
       ++ [EvBwApply flash_BwOp (p Sample.inp_dropout);
           EvSetRng (rng Sample.w0);
           EvFlashBwdKernel (rng Sample.w0) (p Sample.inp_dropout);
           EvSetRng (rng Sample.w_ambient)]
  /\ rng Scenario.w_replay = rng Sample.w_ambient.
Proof.
  exact (bridge_replays_dropout Sample.a100 None Sample.args_dropout
           Sample.inp_dropout Sample.w0 Sample.w_apply Sample.out_fw
           Scenario.fctx_replay Sample.grad Sample.w_ambient Scenario.w_replay
           Scenario.tup_replay eq_refl eq_refl eq_refl eq_refl).
Defined.

Lemma bridge_backward_is_manual_backward_witness :
  _fMHA.backward Sample.a100 Scenario.fctx_plain Sample.grad Sample.w_ambient
  = bindM (memory_efficient_attention_backward Sample.a100 Sample.grad
             Sample.out_fw Sample.lse_ Sample.q Sample.k Sample.v BiasNone 0
             None (Some flash_BwOp))
          (fun g => match g with
                    | (dq_, dk_, dv_) =>
                        ret ([None; Some dq_; Some dk_; Some dv_]
                             ++ repeat None (6 - 3))
                    end) Sample.w_ambient.
Proof.
  exact (bridge_backward_is_manual_backward Sample.a100 Scenario.fctx_plain
           Sample.grad Sample.w_ambient eq_refl eq_refl eq_refl).
Defined.

Lemma forward_hands_over_operands_witness :
  exists inp inp' os,
    Inputs_of_args Sample.args_causal = inr inp
    /\ normalize_bmhk inp = inr (inp', os)
    /\ _fMHA.saved_inputs Sample.fctx_causal
       = mkInputs (detach (query inp')) (detach (key inp')) (detach (value inp'))
                  (attn_bias inp) (p inp) (scale inp)
    /\ requires_grad (query (_fMHA.saved_inputs Sample.fctx_causal)) = false
    /\ requires_grad (key (_fMHA.saved_inputs Sample.fctx_causal)) = false
    /\ requires_grad (value (_fMHA.saved_inputs Sample.fctx_causal)) = false
    /\ n_args Sample.fctx_causal = List.length Sample.args_causal
    /\ needs_input_grad Sample.fctx_causal = []
    /\ shape Sample.out_fw = os.
Proof.
  exact (forward_hands_over_operands Sample.a100 [] None Sample.args_causal
           Sample.w0 Sample.w_causal Sample.out_fw Sample.fctx_causal eq_refl).
Defined.

Lemma backward_rejects_inspected_position_witness :
  _fMHA.backward Sample.a100 Scenario.fctx_bias_requested Sample.grad
    Sample.w_ambient
  = (Sample.w_ambient, inl (AssertionError _fMHA.msg_qkv_only)).
Proof.
  apply (backward_rejects_inspected_position Sample.a100
           Scenario.fctx_bias_requested Sample.grad Sample.w_ambient 4%nat).
  - simpl. lia.
  - simpl. right. left. reflexivity.
  - reflexivity.
Defined.

(** ** The differentiable entry point on the flash operators *)

Lemma Inputs_of_args_positional (inp : Inputs) :
  Inputs_of_args
    [PyTensor (query inp); PyTensor (key inp); PyTensor (value inp);
     PyVal_of_bias (attn_bias inp); PyFloat (p inp); PyVal_of_scale (scale inp)]
  = inr inp.
Proof.
  destruct inp as [q_ k_ v_ b x s]. simpl.
  destruct b as [| t | m]; destruct s as [y |]; reflexivity.
Qed.

Section EntryPointOnFlash.

Variable E : Env.

(** X16: a call of [memory_efficient_attention] with the flash forward
    operator given explicitly, if it returns, has run the flash kernel once,
    under the generator state ambient at the call and with the caller's [p].
    When none of query, key and value requires a gradient the operator was
    invoked with [needs_gradient = False] and autograd was not entered;
    otherwise autograd was entered first and the operator was invoked with
    [needs_gradient = True]. *)
Theorem memory_efficient_attention_on_flash
  (query_ key_ value_ : Tensor) (attn_bias_ : AttnBias) (p_ : Q)
  (scale_ : option Q) (given_bw : option BwOpId) (w w' : World) (o : Tensor) :
  memory_efficient_attention E query_ key_ value_ attn_bias_ p_ scale_
    (Some (Some flash_FwOp, given_bw)) w = (w', inr o) ->
  let no_grad := negb (requires_grad query_) && negb (requires_grad key_)
                 && negb (requires_grad value_) in
  trace w'
  = trace w
    ++ (if no_grad then [] else [EvAutogradApply])
    ++ [EvFwApply flash_FwOp (negb no_grad) p_; EvFlashFwdKernel (rng w) p_].
Proof.
  intros H no_grad.
  unfold memory_efficient_attention, _memory_efficient_attention in H.
  assert (Hall : forallb (fun x => negb (requires_grad x))
                   [query_; key_; value_] = no_grad).
  { unfold no_grad. simpl.
    destruct (requires_grad query_), (requires_grad key_),
      (requires_grad value_); reflexivity. }
  cbv beta iota delta [query key value] in H. rewrite Hall in H. clear Hall.
  destruct no_grad.
  - (* the forward-only path *)
    simpl fw_half in H. unfold _memory_efficient_attention_forward in H.
    bind_inv H as w1 n H1. apply liftR_inr in H1. destruct H1 as [-> Hn].
    destruct n as [inp1 os].
    apply normalize_bmhk_fields in Hn. simpl in Hn. destruct Hn as [_ [Hp _]].
    bind_inv H as w2 chosen H2. unfold ret in H2. injection H2 as <- <-.
    bind_inv H as w3 r H3. apply liftR_inr in H. destruct H as [-> _].
    destruct r as [o0 c0].
    unfold fw_apply, bindM at 1, log in H3. simpl in H3.
    apply FwOp_apply_inv in H3.
    destruct H3 as [q0 [q1 [q2 [v3 [softmax_lse [written Hinv]]]]]].
    destruct Hinv as [_ [_ [_ [_ [_ [_ [_ [Htr _]]]]]]]].
    simpl in Htr. rewrite Hp in Htr. rewrite Htr, <- app_assoc. reflexivity.
  - (* through autograd *)
    bind_inv H as w1 n H1. apply liftR_inr in H1. destruct H1 as [-> Hn].
    destruct n as [inp1 os].
    apply normalize_bmhk_fields in Hn. simpl in Hn. destruct Hn as [_ [Hp1 _]].
    bind_inv H as w2 r H2. apply liftR_inr in H. destruct H as [-> _].
    destruct r as [o0 fctx].
    unfold _fMHA.apply, bindM at 1, log in H2.
    apply forward_inv in H2.
    destruct H2 as [inp0 [inp' [op_ctx [recorded [Hargs [Hrun _]]]]]].
    assert (Hsame : @inr exn Inputs inp0 = inr inp1).
    { rewrite <- Hargs. exact (Inputs_of_args_positional inp1). }
    injection Hsame as ->. clear Hargs.
    simpl fw_half in Hrun.
    apply forward_requires_grad_inv in Hrun.
    destruct Hrun as [os2 [chosen [o1 [Hnorm [Hop [Happly _]]]]]].
    injection Hop as <-.
    apply normalize_bmhk_fields in Hnorm. destruct Hnorm as [_ [Hp2 _]].
    unfold fw_apply, bindM at 1, log in Happly. simpl in Happly.
    apply FwOp_apply_inv in Happly.
    destruct Happly as [q0 [q1 [q2 [v3 [softmax_lse [written Hinv]]]]]].
    destruct Hinv as [_ [_ [_ [_ [_ [_ [_ [Htr _]]]]]]]].
    simpl in Htr. rewrite Hp2, Hp1 in Htr.
    rewrite Htr, <- !app_assoc. reflexivity.
Qed.

End EntryPointOnFlash.

Lemma memory_efficient_attention_on_flash_witness :
  trace Sample.w_apply
  = trace Sample.w0
    ++ [EvAutogradApply]
    ++ [EvFwApply flash_FwOp true Sample.dropout;
        EvFlashFwdKernel (rng Sample.w0) Sample.dropout].
Proof.
  exact (memory_efficient_attention_on_flash Sample.a100 Sample.q_grad Sample.k
           Sample.v BiasNone Sample.dropout None None Sample.w0 Sample.w_apply
           Sample.out_fw eq_refl).
Defined.

(** ** The forward-only entry point with dropout *)







Section ForwardReturns.

Variable E : Env.



End ForwardReturns.



